(** * Sentiment analysis app: the classifier, the aggregator and the upload boundary

    A shallow embedding of [senti_app.py]:
    - [classify_sentiment] maps the analyzer's compound score to a label;
    - [analyze_reviews] walks a dictionary of reviews and tallies the labels;
    - [process_upload] is the file processing block that validates the
      uploaded JSON document and reports errors to the page.

    Python values are modelled as far as the code looks at them: strings are
    lists of code points, floats are binary64 numbers ([spec_float]),
    dictionaries are insertion-ordered association lists, and a raised
    exception is a value of an error monad.  The VADER analyzer and
    [json.load] are collaborators of the program; they are section variables. *)

From Stdlib Require Import ZArith NArith Bool Ascii String QArith.
From Stdlib Require Import Floats.SpecFloat.
From stdpp Require Import base option list gmap.

#[local] Set Warnings "-register-all".
Local Open Scope N_scope.

(** ** Python values *)

Module Py.

(** A [str] is a sequence of Unicode code points. *)
Definition str : Type := list N.

(** An ASCII literal as a [str]. *)
Definition lit (s : String.string) : str :=
  List.map N_of_ascii (list_ascii_of_string s).
Arguments lit s%_string.

(** [Py_UNICODE_ISSPACE]: the code points that [str.strip()] removes. *)
Definition isspace (c : N) : bool :=
  ((0x09 <=? c) && (c <=? 0x0D)) || ((0x1C <=? c) && (c <=? 0x20))
  || (c =? 0x85) || (c =? 0xA0) || (c =? 0x1680)
  || ((0x2000 <=? c) && (c <=? 0x200A))
  || (c =? 0x2028) || (c =? 0x2029) || (c =? 0x202F) || (c =? 0x205F)
  || (c =? 0x3000).

Fixpoint lstrip (s : str) : str :=
  match s with
  | c :: s' => if isspace c then lstrip s' else s
  | [] => []
  end.

Definition rstrip (s : str) : str := rev (lstrip (rev s)).

(** [s.strip()] *)
Definition strip (s : str) : str := rstrip (lstrip s).

(** [needle in hay] for two strings: substring search. *)
Fixpoint startswith (hay needle : str) : bool :=
  match needle, hay with
  | [], _ => true
  | n :: needle', h :: hay' => (n =? h) && startswith hay' needle'
  | _ :: _, [] => false
  end.

Fixpoint contains_str (hay needle : str) : bool :=
  startswith hay needle ||
  match hay with
  | [] => false
  | _ :: hay' => contains_str hay' needle
  end.

(** The values [json.load] produces. *)
Inductive value : Type :=
| None_
| Bool (b : bool)
| Int (z : Z)
| Float (f : spec_float)
| Str (s : str)
| List (l : list value)
| Dict (d : list (str * value)).

(** A dictionary keeps its keys in insertion order; its keys are unique. *)
Abbreviation dict V := (list (str * V)) (only parsing).

Definition keys {V} (d : dict V) : list str := d.*1.

Definition wf {V} (d : dict V) : Prop := NoDup (keys d).

(** [d[k]] as a lookup that may miss. *)
Fixpoint get {V} (d : dict V) (k : str) : option V :=
  match d with
  | [] => None
  | (k', v) :: d' => if decide (k' = k) then Some v else get d' k
  end.

(** [d[k] = v]: an existing key keeps its place, a new key goes last. *)
Fixpoint set {V} (d : dict V) (k : str) (v : V) : dict V :=
  match d with
  | [] => [(k, v)]
  | (k', v') :: d' =>
      if decide (k' = k) then (k, v) :: d' else (k', v') :: set d' k v
  end.

(** [k in d] *)
Definition mem {V} (d : dict V) (k : str) : bool := bool_decide (k ∈ keys d).

(** The dictionary seen as a finite map. *)
Definition to_map {V} (d : dict V) : gmap str V := list_to_map d.

(** Truth value of an object, as [not x] and [if x] test it. *)
Definition truthy (v : value) : bool :=
  match v with
  | None_ => false
  | Bool b => b
  | Int z => negb (z =? 0)%Z
  | Float f => match f with S754_zero _ => false | _ => true end
  | Str s => negb (bool_decide (s = []))
  | List l => match l with [] => false | _ => true end
  | Dict d => match d with [] => false | _ => true end
  end.

(** [type(v).__name__] *)
Definition type_name (v : value) : str :=
  match v with
  | None_ => lit "NoneType"
  | Bool _ => lit "bool"
  | Int _ => lit "int"
  | Float _ => lit "float"
  | Str _ => lit "str"
  | List _ => lit "list"
  | Dict _ => lit "dict"
  end.

(** Exceptions.  The class decides which handler takes the exception,
    [exn_str] is [str(e)]. *)
Inductive exn_class : Type :=
| JSONDecodeError
| AttributeError
| TypeError
| OtherException (name : str)
| BaseExceptionOnly (name : str).

Record exn : Type := Exn { exn_cls : exn_class; exn_str : str }.

(** [isinstance(e, json.JSONDecodeError)] *)
Definition is_JSONDecodeError (e : exn) : bool :=
  match exn_cls e with JSONDecodeError => true | _ => false end.

(** [isinstance(e, Exception)]: everything but the classes that derive from
    [BaseException] alone ([KeyboardInterrupt], [SystemExit], ...). *)
Definition is_Exception (e : exn) : bool :=
  match exn_cls e with BaseExceptionOnly _ => false | _ => true end.

(** The result of running a piece of code. *)
Inductive outcome (A : Type) : Type :=
| Returned (a : A)
| Raised (e : exn).
Arguments Returned {A} a.
Arguments Raised {A} e.

(** [v.strip()]: only a string has the method. *)
Definition strip_method (v : value) : outcome str :=
  match v with
  | Str s => Returned (strip s)
  | _ => Raised (Exn AttributeError
           (lit "'" ++ type_name v ++ lit "' object has no attribute 'strip'"))
  end.

(** Python floats compare as binary64 numbers; a NaN compares false. *)
Definition float_ge (x y : spec_float) : bool := SFleb y x.
Definition float_le (x y : spec_float) : bool := SFleb x y.

(** The literal [0.05]: 0x1.999999999999ap-5. *)
Definition f0_05 : spec_float := S754_finite false 7205759403792794 (-57).

(** The rational a float stands for; an infinity and a NaN stand for none. *)
Definition float_value (x : spec_float) : option Q :=
  match x with
  | S754_zero _ => Some 0%Q
  | S754_finite s m e =>
      Some match e with
           | Z.neg k => cond_Zopp s (Z.pos m) # 2 ^ k
           | _ => inject_Z (cond_Zopp s (Z.pos m) * 2 ^ e)
           end
  | _ => None
  end.

(** A binary64 number: 53 bits of precision, exponents below 1024. *)
Definition binary64 (x : spec_float) : bool := valid_binary 53 1024 x.

(** [x == s] for a string [s]: only an equal string is equal to it. *)
Definition eq_str (x : value) (s : str) : bool :=
  match x with
  | Str s' => bool_decide (s' = s)
  | _ => false
  end.

(** [key in container] for a string key. *)
Definition contains (container : value) (key : str) : outcome bool :=
  match container with
  | Dict d => Returned (mem d key)
  | List l => Returned (existsb (fun x => eq_str x key) l)
  | Str s => Returned (contains_str s key)
  | _ => Raised (Exn TypeError
           (lit "argument of type '" ++ type_name container
              ++ lit "' is not iterable"))
  end.

(** [container[key]] for a string key. *)
Definition getitem (container : value) (key : str) : outcome value :=
  match container with
  | Dict d =>
      match get d key with
      | Some v => Returned v
      | None => Raised (Exn (OtherException (lit "KeyError"))
                  (lit "'" ++ key ++ lit "'"))
      end
  | List _ =>
      Raised (Exn TypeError
        (lit "list indices must be integers or slices, not str"))
  | Str _ =>
      Raised (Exn TypeError (lit "string indices must be integers, not 'str'"))
  | _ => Raised (Exn TypeError
           (lit "'" ++ type_name container ++ lit "' object is not subscriptable"))
  end.

End Py.

(** ** The program's data *)

(** The three strings [classify_sentiment] returns. *)
Inductive SentimentLabel : Type := positive | negative | neutral.

Definition label_text (l : SentimentLabel) : Py.str :=
  match l with
  | positive => Py.lit "positive"
  | negative => Py.lit "negative"
  | neutral => Py.lit "neutral"
  end.

#[global] Instance SentimentLabel_eq_dec : EqDecision SentimentLabel.
Proof. solve_decision. Defined.

(** What [analyzer.polarity_scores] returns. *)
Record scores : Type :=
  Scores { neg : spec_float; neu : spec_float; pos : spec_float;
           compound : spec_float }.

(** The dictionary [analyze_reviews] returns. *)
Record Summary : Type :=
  { positive_count : nat; negative_count : nat; neutral_count : nat }.

Record AnalysisResult : Type :=
  { sentiments : Py.dict SentimentLabel; summary : Summary }.

(** The local variables of [analyze_reviews] while the loop runs. *)
Record locals : Type :=
  Locals { v_sentiments : Py.dict SentimentLabel;
           v_positive_count : nat;
           v_negative_count : nat;
           v_neutral_count : nat }.

(** ** Effects: calls and exceptions *)

(** The calls a run makes, oldest first. *)
Inductive call : Type :=
| Call_analyze_reviews (review_dict : Py.dict Py.value)
| Call_classify_sentiment (text : Py.value)
| Call_polarity_scores (text : Py.value).

Definition trace : Type := list call.

(** The texts the analyzer has been asked about so far. *)
Definition analyzer_history (w : trace) : list Py.value :=
  omap (fun c => match c with Call_polarity_scores t => Some t | _ => None end) w.

(** A computation reads and extends the trace and returns or raises. *)
Definition M (A : Type) : Type := trace -> Py.outcome A * trace.

Definition ret {A} (a : A) : M A := fun w => (Py.Returned a, w).

Definition lift {A} (o : Py.outcome A) : M A := fun w => (o, w).

Definition bind {A B} (m : M A) (k : A -> M B) : M B :=
  fun w =>
    match m w with
    | (Py.Returned a, w') => k a w'
    | (Py.Raised e, w') => (Py.Raised e, w')
    end.

Definition log (c : call) : M unit := fun w => (Py.Returned tt, w ++ [c]).

#[global] Instance M_ret : MRet M := @ret.
#[global] Instance M_bind : MBind M := fun A B k m => bind m k.

(** ** What the page shows *)

Inductive ui_event : Type :=
| st_error (body : Py.str)
| st_warning (body : Py.str)
| st_subheader (body : Py.str)
| st_columns (spec : nat)
| st_metric (label : Py.str) (value : nat)
| st_json (body : AnalysisResult)
| st_download_button (label : Py.str) (data : AnalysisResult)
    (file_name mime : Py.str).

(** The marks the messages start with: U+274C, U+26A0, U+1F4CC, U+1F4C4
    and U+2B07, each followed by a space. *)
Definition cross_mark : Py.str := [0x274C; 0x20].
Definition warning_sign : Py.str := [0x26A0; 0x20].
Definition pushpin : Py.str := [0x1F4CC; 0x20].
Definition page_facing_up : Py.str := [0x1F4C4; 0x20].
Definition down_arrow : Py.str := [0x2B07; 0x20].

(** ** Stand-ins for the collaborators

    A small analyzer and documents to run the program on. *)

Definition f0_5 : spec_float := S754_finite false 4503599627370496 (-53).

Definition only_compound (c : spec_float) : scores :=
  Scores (S754_zero false) (S754_zero false) (S754_zero false) c.

(** An analyzer that knows a few texts, fails on one and scores the rest 0.0,
    whatever it was asked before. *)
Definition stub_polarity_scores (_ : list Py.value) (text : Py.value)
  : Py.outcome scores :=
  match text with
  | Py.Str s =>
      if bool_decide (s = Py.lit "I love this product!") then
        Py.Returned (only_compound f0_5)
      else if bool_decide (s = Py.lit "Very bad experience") then
        Py.Returned (only_compound (SFopp f0_5))
      else if bool_decide (s = Py.lit "just enough") then
        Py.Returned (only_compound Py.f0_05)
      else if bool_decide (s = Py.lit "just too little") then
        Py.Returned (only_compound (SFopp Py.f0_05))
      else if bool_decide (s = Py.lit "crash") then
        Py.Raised (Py.Exn (Py.OtherException (Py.lit "RuntimeError"))
                     (Py.lit "lexicon unavailable"))
      else Py.Returned (only_compound (S754_zero false))
  | _ =>
      Py.Raised (Py.Exn Py.AttributeError
        (Py.lit "'" ++ Py.type_name text
           ++ Py.lit "' object has no attribute 'split'"))
  end.

(** A [json.load] that yields the same outcome for every file. *)
Definition load_as (o : Py.outcome Py.value) (_ : list Byte.byte)
  : Py.outcome Py.value := o.

Definition reviews_A : Py.dict Py.value :=
  [ (Py.lit "id1", Py.Str (Py.lit "I love this product!"));
    (Py.lit "id2", Py.Str (Py.lit "Average service"));
    (Py.lit "id3", Py.Str (Py.lit "Very bad experience")) ].

Definition reviews_E : Py.dict Py.value :=
  [ (Py.lit "id1", Py.Str (Py.lit "   ")) ].

Definition reviews_crash : Py.dict Py.value :=
  [ (Py.lit "id1", Py.Str (Py.lit "crash")) ].

Definition result_A : AnalysisResult :=
  {| sentiments := [ (Py.lit "id1", positive); (Py.lit "id2", neutral);
                     (Py.lit "id3", negative) ];
     summary := {| positive_count := 1; negative_count := 1;
                   neutral_count := 1 |} |}.

Definition reviews_before_number : Py.dict Py.value :=
  [ (Py.lit "id1", Py.Str (Py.lit "I love this product!")) ].

Definition reviews_after_number : Py.dict Py.value :=
  [ (Py.lit "id3", Py.Str (Py.lit "Very bad experience")) ].

Definition reviews_number : Py.dict Py.value :=
  reviews_before_number ++ (Py.lit "id2", Py.Int 5) :: reviews_after_number.

Definition document (reviews : Py.value) : Py.value :=
  Py.Dict [ (Py.lit "reviews", reviews) ].

Definition document_B : Py.value := Py.Dict [ (Py.lit "foo", Py.Dict []) ].

Definition decode_error : Py.exn :=
  Py.Exn Py.JSONDecodeError
    (Py.lit "Expecting value: line 1 column 1 (char 0)").

(** A file that is not valid JSON: the object [reviews] holds a string with
    the byte 0xff, which is not UTF-8.  [json.load] rejects it while decoding
    the bytes, with a [UnicodeDecodeError], a [ValueError] that is not a
    [JSONDecodeError]. *)
Definition invalid_utf8_file : list Byte.byte :=
  [ Byte.x7b; Byte.x22; Byte.x72; Byte.x65; Byte.x76; Byte.x69; Byte.x65;
    Byte.x77; Byte.x73; Byte.x22; Byte.x3a; Byte.x20; Byte.x7b; Byte.x22;
    Byte.x61; Byte.x22; Byte.x3a; Byte.x20; Byte.x22; Byte.xff; Byte.x22;
    Byte.x7d; Byte.x7d ].

Definition unicode_decode_error : Py.exn :=
  Py.Exn (Py.OtherException (Py.lit "UnicodeDecodeError"))
    (Py.lit "'utf-8' codec can't decode byte 0xff in position 19: invalid start byte").

(** [KeyboardInterrupt()], whose [str] is empty. *)
Definition keyboard_interrupt : Py.exn :=
  Py.Exn (Py.BaseExceptionOnly (Py.lit "KeyboardInterrupt")) [].

(** An analyzer that is interrupted whenever it is asked. *)
Definition interrupted_polarity_scores (_ : list Py.value) (_ : Py.value)
  : Py.outcome scores := Py.Raised keyboard_interrupt.

(** An analyzer that raises a [JSONDecodeError] of its own. *)
Definition decoding_polarity_scores (_ : list Py.value) (_ : Py.value)
  : Py.outcome scores := Py.Raised decode_error.


(** ** The program *)

Section App.

(** [analyzer.polarity_scores]: its answer may depend on the text and on what
    it has been asked before, and it may raise. *)
Variable polarity_scores : list Py.value -> Py.value -> Py.outcome scores.

(** [json.load] on the bytes of the uploaded file. *)
Variable json_load : list Byte.byte -> Py.outcome Py.value.

Definition call_polarity_scores (text : Py.value) : M scores :=
  fun w => (polarity_scores (analyzer_history w) text,
            w ++ [Call_polarity_scores text]).

(** The [if]/[elif]/[else] of [classify_sentiment] on the compound score:
    [score >= 0.05], then [score <= -0.05], then neither. *)
Definition label_of_score (score : spec_float) : SentimentLabel :=
  if Py.float_ge score Py.f0_05 then positive
  else if Py.float_le score (SFopp Py.f0_05) then negative
  else neutral.

Definition classify_sentiment (text : Py.value) : M SentimentLabel :=
  log (Call_classify_sentiment text);;
  s ← call_polarity_scores text;
  let score := compound s in
  mret (label_of_score score).

(** [not review_text or not review_text.strip()] *)
Definition is_empty_review (review_text : Py.value) : Py.outcome bool :=
  if negb (Py.truthy review_text) then Py.Returned true
  else
    match Py.strip_method review_text with
    | Py.Returned stripped => Py.Returned (negb (Py.truthy (Py.Str stripped)))
    | Py.Raised e => Py.Raised e
    end.

(** One turn of the loop over [review_dict.items()]. *)
Definition loop_body (l : locals) (review_id : Py.str) (review_text : Py.value)
  : M locals :=
  empty ← lift (is_empty_review review_text);
  if (empty : bool) then
    mret (Locals (Py.set (v_sentiments l) review_id neutral)
            (v_positive_count l) (v_negative_count l)
            (v_neutral_count l + 1))
  else
    sentiment ← classify_sentiment review_text;
    let sentiments' := Py.set (v_sentiments l) review_id sentiment in
    match sentiment with
    | positive =>
        mret (Locals sentiments' (v_positive_count l + 1)
                (v_negative_count l) (v_neutral_count l))
    | negative =>
        mret (Locals sentiments' (v_positive_count l)
                (v_negative_count l + 1) (v_neutral_count l))
    | neutral =>
        mret (Locals sentiments' (v_positive_count l)
                (v_negative_count l) (v_neutral_count l + 1))
    end.

Fixpoint for_items (items : list (Py.str * Py.value)) (l : locals) : M locals :=
  match items with
  | [] => mret l
  | (review_id, review_text) :: rest =>
      l' ← loop_body l review_id review_text;
      for_items rest l'
  end.

Definition analyze_reviews (review_dict : Py.dict Py.value) : M AnalysisResult :=
  log (Call_analyze_reviews review_dict);;
  l ← for_items review_dict (Locals [] 0 0 0);
  mret {| sentiments := v_sentiments l;
          summary := {| positive_count := v_positive_count l;
                        negative_count := v_negative_count l;
                        neutral_count := v_neutral_count l |} |}.

(** The page after a successful analysis. *)
Definition render (output : AnalysisResult) : list ui_event :=
  [ st_subheader (pushpin ++ Py.lit "Sentiment Summary");
    st_columns 3;
    st_metric (Py.lit "Positive") (positive_count (summary output));
    st_metric (Py.lit "Negative") (negative_count (summary output));
    st_metric (Py.lit "Neutral") (neutral_count (summary output));
    st_subheader (page_facing_up ++ Py.lit "Output JSON");
    st_json output;
    st_download_button (down_arrow ++ Py.lit "Download Output JSON") output
      (Py.lit "sentiment_results.json") (Py.lit "application/json") ].

(** The body of the [try] statement. *)
Definition try_body (uploaded_file : list Byte.byte) : M (list ui_event) :=
  data ← lift (json_load uploaded_file);
  has_reviews ← lift (Py.contains data (Py.lit "reviews"));
  if negb has_reviews then
    mret [st_error (cross_mark ++ Py.lit "JSON must contain 'reviews' key.")]
  else
    reviews ← lift (Py.getitem data (Py.lit "reviews"));
    match reviews with
    | Py.Dict review_dict =>
        if bool_decide (length review_dict = 0%nat) then
          mret [st_warning (warning_sign ++ Py.lit "Review dictionary is empty.")]
        else
          output ← analyze_reviews review_dict;
          mret (render output)
    | _ =>
        mret [st_error (cross_mark
                ++ Py.lit "'reviews' must be a dictionary with id:text format.")]
    end.

(** The two [except] clauses, tried in order; an exception neither of them
    names leaves the block. *)
Definition handlers (e : Py.exn) : M (list ui_event) :=
  if Py.is_JSONDecodeError e then
    mret [st_error (cross_mark ++ Py.lit "Invalid JSON file format.")]
  else if Py.is_Exception e then
    mret [st_error (warning_sign ++ Py.lit "Unexpected Error: " ++ Py.exn_str e)]
  else lift (Py.Raised e).

(** [if uploaded_file is not None: try: ... except ...] *)
Definition process_upload (uploaded_file : option (list Byte.byte))
  : M (list ui_event) :=
  match uploaded_file with
  | None => mret []
  | Some file =>
      fun w =>
        match try_body file w with
        | (Py.Returned page, w') => (Py.Returned page, w')
        | (Py.Raised e, w') => handlers e w'
        end
  end.

(** ** Notions the statements use *)

(** A review whose text is a string. *)
Definition is_text (v : Py.value) : bool :=
  match v with Py.Str _ => true | _ => false end.

(** A ReviewSet: unique ids, every text a string. *)
Definition ReviewSet (d : Py.dict Py.value) : Prop :=
  Py.wf d ∧ Forall (fun kv => is_text kv.2 = true) d.

(** The number of ids a sentiments mapping labels [lab]. *)
Definition count_label (lab : SentimentLabel) (d : Py.dict SentimentLabel) : nat :=
  length (filter (fun kv => kv.2 = lab) d).

(** The counts of the loop agree with the labels assigned so far. *)
Definition tallied (l : locals) : Prop :=
  Py.wf (v_sentiments l)
  ∧ v_positive_count l = count_label positive (v_sentiments l)
  ∧ v_negative_count l = count_label negative (v_sentiments l)
  ∧ v_neutral_count l = count_label neutral (v_sentiments l).

(** The calls of a run that were made on a text the emptiness check lets
    through. *)
Definition on_nonempty_text (c : call) : Prop :=
  match c with
  | Call_analyze_reviews _ => False
  | Call_classify_sentiment t | Call_polarity_scores t =>
      is_empty_review t = Py.Returned false
  end.

(** The analyzer answers, whatever it was asked before, for every text of
    [d] that the emptiness check lets through. *)
Definition answers_for (d : Py.dict Py.value) : Prop :=
  ∀ h kv, kv ∈ d → is_empty_review kv.2 = Py.Returned false →
          ∃ s, polarity_scores h kv.2 = Py.Returned s.

(** How a label can have come to a review text: by the emptiness check, or
    by the rule on a score the analyzer returned for the text. *)
Definition labelled (review_text : Py.value) (lab : SentimentLabel) : Prop :=
  (is_empty_review review_text = Py.Returned true ∧ lab = neutral)
  ∨ (is_empty_review review_text = Py.Returned false
     ∧ ∃ h s, polarity_scores h review_text = Py.Returned s
              ∧ lab = label_of_score (compound s)).

(** The emptiness check returns and lets the text through. *)
Definition goes_to_classifier (review_text : Py.value) : bool :=
  match is_empty_review review_text with
  | Py.Returned false => true
  | _ => false
  end.

(** The calls one turn of the loop makes for a text. *)
Definition calls_of_review (review_text : Py.value) : list call :=
  if goes_to_classifier review_text then
    [Call_classify_sentiment review_text; Call_polarity_scores review_text]
  else [].

Definition calls_of_reviews (items : Py.dict Py.value) : list call :=
  concat (map (fun kv => calls_of_review kv.2) items).

(** The labels in the order of the scores they stand for. *)
Definition rank (lab : SentimentLabel) : nat :=
  match lab with negative => 0 | neutral => 1 | positive => 2 end.

Definition mirror (lab : SentimentLabel) : SentimentLabel :=
  match lab with
  | positive => negative
  | negative => positive
  | neutral => neutral
  end.

(** The analyzer's answer for a text does not depend on what it was asked
    before. *)
Definition stateless : Prop :=
  ∀ h h' text, polarity_scores h text = polarity_scores h' text.

(** The label of a text under an analyzer that has been asked nothing. *)
Definition label_now (review_text : Py.value) : SentimentLabel :=
  if goes_to_classifier review_text then
    match polarity_scores [] review_text with
    | Py.Returned s => label_of_score (compound s)
    | Py.Raised _ => neutral
    end
  else neutral.

(** ** Dictionaries *)

Section Dict.
Context {V : Type}.
Implicit Types (d : Py.dict V) (k : Py.str) (v : V).

Lemma keys_set_fresh d k v :
  k ∉ Py.keys d → Py.keys (Py.set d k v) = Py.keys d ++ [k].
Proof.
  unfold Py.keys. induction d as [|[k' v'] d IH]; intros Hk; csimpl; [done|].
  apply not_elem_of_cons in Hk as [Hne Hk].
  destruct (decide (k' = k)) as [->|_]; [done|]. csimpl. by rewrite IH.
Qed.

Lemma keys_set_present d k v :
  k ∈ Py.keys d → Py.keys (Py.set d k v) = Py.keys d.
Proof.
  unfold Py.keys. induction d as [|[k' v'] d IH]; intros Hk; csimpl.
  - by apply elem_of_nil in Hk.
  - destruct (decide (k' = k)) as [->|Hne]; [done|]. csimpl. f_equal.
    apply IH. apply elem_of_cons in Hk as [->|Hk]; [done|exact Hk].
Qed.

Lemma get_set_eq d k v : Py.get (Py.set d k v) k = Some v.
Proof.
  induction d as [|[k' v'] d IH]; csimpl.
  - by rewrite decide_True.
  - destruct (decide (k' = k)) as [->|Hne]; csimpl.
    + by rewrite decide_True.
    + by rewrite decide_False.
Qed.

Lemma get_set_ne d k k' v : k ≠ k' → Py.get (Py.set d k v) k' = Py.get d k'.
Proof.
  intros Hne. induction d as [|[k0 v0] d IH]; csimpl.
  - by rewrite decide_False.
  - destruct (decide (k0 = k)) as [->|Hne0]; csimpl.
    + by rewrite !decide_False.
    + destruct (decide (k0 = k')); [done|apply IH].
Qed.

Lemma set_fresh d k v : k ∉ Py.keys d → Py.set d k v = d ++ [(k, v)].
Proof.
  unfold Py.keys. induction d as [|[k' v'] d IH]; intros Hk; csimpl; [done|].
  apply not_elem_of_cons in Hk as [Hne Hk].
  destruct (decide (k' = k)) as [->|_]; [done|]. by rewrite IH.
Qed.

Lemma get_to_map d k : Py.wf d → Py.get d k = Py.to_map d !! k.
Proof.
  unfold Py.wf, Py.keys, Py.to_map.
  induction d as [|[k' v'] d IH]; intros Hd; csimpl; [done|].
  apply NoDup_cons in Hd as [_ Hd].
  destruct (decide (k' = k)) as [->|Hne].
  - by rewrite lookup_insert_eq.
  - rewrite lookup_insert_ne; [|done]. by apply IH.
Qed.

Lemma dom_to_map d : dom (Py.to_map d) = list_to_set (Py.keys d).
Proof. unfold Py.to_map, Py.keys. apply dom_list_to_map_L. Qed.

Lemma size_to_map d : Py.wf d → size (Py.to_map d) = length d.
Proof.
  intros Hd. unfold Py.to_map.
  rewrite <- (length_map_to_list (M:=gmap Py.str)).
  symmetry. apply Permutation_length. symmetry.
  by apply map_to_list_to_map.
Qed.

End Dict.

(** ** Counting labels *)

Lemma count_label_snoc lab (d : Py.dict SentimentLabel) k v :
  count_label lab (d ++ [(k, v)])
  = (count_label lab d + if decide (v = lab) then 1 else 0)%nat.
Proof.
  unfold count_label. rewrite filter_app, length_app. f_equal.
  rewrite filter_cons, filter_nil. simpl. by destruct (decide (v = lab)).
Qed.

Lemma count_label_total (d : Py.dict SentimentLabel) :
  (count_label positive d + count_label negative d + count_label neutral d)%nat
  = length d.
Proof.
  unfold count_label. induction d as [|[k v] d IH]; [done|].
  rewrite !filter_cons. simpl.
  destruct v; repeat case_decide; try done; simpl; lia.
Qed.

(** ** Running the monad *)

Ltac run :=
  unfold mbind, M_bind, bind, mret, M_ret, ret, lift, log in *; simpl in *.

(** ** The aggregator's loop *)

(** What a call of the classifier does to the trace and what it returns. *)
Lemma classify_sentiment_run text w :
  classify_sentiment text w
  = (match polarity_scores (analyzer_history w) text with
     | Py.Returned s => Py.Returned (label_of_score (compound s))
     | Py.Raised e => Py.Raised e
     end,
     w ++ [Call_classify_sentiment text; Call_polarity_scores text]).
Proof.
  unfold classify_sentiment, call_polarity_scores. run.
  unfold analyzer_history. rewrite omap_app. simpl. rewrite app_nil_r.
  rewrite <- app_assoc. simpl.
  by destruct (polarity_scores _ text).
Qed.

(** An entry the emptiness check takes: neutral, one more neutral, no call. *)
Lemma loop_body_empty l review_id review_text w :
  is_empty_review review_text = Py.Returned true →
  loop_body l review_id review_text w
  = (Py.Returned (Locals (Py.set (v_sentiments l) review_id neutral)
                    (v_positive_count l) (v_negative_count l)
                    (v_neutral_count l + 1)), w).
Proof. intros He. unfold loop_body. run. by rewrite He. Qed.

(** An entry the emptiness check lets through: the classifier decides. *)
Lemma loop_body_nonempty l review_id review_text w :
  is_empty_review review_text = Py.Returned false →
  loop_body l review_id review_text w
  = (match polarity_scores (analyzer_history w) review_text with
     | Py.Returned s =>
         let lab := label_of_score (compound s) in
         Py.Returned
           (Locals (Py.set (v_sentiments l) review_id lab)
              (v_positive_count l + if decide (lab = positive) then 1 else 0)
              (v_negative_count l + if decide (lab = negative) then 1 else 0)
              (v_neutral_count l + if decide (lab = neutral) then 1 else 0))
     | Py.Raised e => Py.Raised e
     end,
     w ++ [Call_classify_sentiment review_text;
           Call_polarity_scores review_text]).
Proof.
  intros He. unfold loop_body. run. rewrite He.
  rewrite classify_sentiment_run.
  destruct (polarity_scores _ review_text) as [s|e]; [|done].
  simpl. destruct (label_of_score (compound s)); simpl;
    by rewrite ?Nat.add_0_r.
Qed.

(** An entry whose emptiness check raises: the loop stops there. *)
Lemma loop_body_raises l review_id review_text w e :
  is_empty_review review_text = Py.Raised e →
  loop_body l review_id review_text w = (Py.Raised e, w).
Proof. intros He. unfold loop_body. run. by rewrite He. Qed.

(** A turn that returns has appended one label for its id and kept the
    counts in step. *)
Lemma loop_body_step l review_id review_text w l1 w1 :
  loop_body l review_id review_text w = (Py.Returned l1, w1) →
  review_id ∉ Py.keys (v_sentiments l) →
  tallied l →
  ∃ lab, v_sentiments l1 = v_sentiments l ++ [(review_id, lab)]
         ∧ tallied l1
         ∧ (is_empty_review review_text = Py.Returned true → lab = neutral).
Proof.
  intros Hrun Hfresh (Hwf & Hp & Hn & Hu).
  assert (Hstep : ∀ lab,
    tallied (Locals (Py.set (v_sentiments l) review_id lab)
      (v_positive_count l + if decide (lab = positive) then 1 else 0)
      (v_negative_count l + if decide (lab = negative) then 1 else 0)
      (v_neutral_count l + if decide (lab = neutral) then 1 else 0))).
  { intros lab. unfold tallied, Py.wf. simpl.
    rewrite keys_set_fresh, set_fresh by done.
    rewrite !count_label_snoc, Hp, Hn, Hu. split_and!; try done.
    apply NoDup_app. split_and!; [done| |apply NoDup_singleton].
    intros x Hx ->%list_elem_of_singleton. done. }
  destruct (is_empty_review review_text) as [[|]|e] eqn:He.
  - rewrite loop_body_empty in Hrun by done. injection Hrun as <- <-.
    exists neutral. split_and!; [by apply set_fresh| |done].
    specialize (Hstep neutral). simpl in Hstep.
    by rewrite !Nat.add_0_r in Hstep.
  - rewrite loop_body_nonempty in Hrun by done.
    destruct (polarity_scores _ review_text) as [s|e]; [|done].
    injection Hrun as <- <-. exists (label_of_score (compound s)).
    split_and!; [by apply set_fresh|apply Hstep|done].
  - by rewrite (loop_body_raises _ _ _ _ e) in Hrun.
Qed.

(** A turn only adds calls made on a text that is not empty. *)
Lemma loop_body_trace l review_id review_text w o w1 :
  loop_body l review_id review_text w = (o, w1) →
  ∃ new, w1 = w ++ new ∧ Forall on_nonempty_text new.
Proof.
  intros Hrun. destruct (is_empty_review review_text) as [[|]|e] eqn:He.
  - rewrite loop_body_empty in Hrun by done. injection Hrun as _ <-.
    exists []. by rewrite app_nil_r.
  - rewrite loop_body_nonempty in Hrun by done. injection Hrun as _ <-.
    eexists; split; [done|]. by repeat constructor.
  - rewrite (loop_body_raises _ _ _ _ e) in Hrun by done.
    injection Hrun as _ <-. exists []. by rewrite app_nil_r.
Qed.

Lemma for_items_cons review_id review_text rest l w :
  for_items ((review_id, review_text) :: rest) l w
  = match loop_body l review_id review_text w with
    | (Py.Returned l1, w1) => for_items rest l1 w1
    | (Py.Raised e, w1) => (Py.Raised e, w1)
    end.
Proof. reflexivity. Qed.

(** The loop invariant: the labels of the entries seen so far, in order, after
    the labels the loop started with. *)
Lemma for_items_returned items : ∀ l w l' w',
  for_items items l w = (Py.Returned l', w') →
  NoDup (Py.keys (v_sentiments l) ++ Py.keys items) →
  tallied l →
  tallied l'
  ∧ Py.keys (v_sentiments l') = Py.keys (v_sentiments l) ++ Py.keys items
  ∧ (∀ k, k ∉ Py.keys items →
          Py.get (v_sentiments l') k = Py.get (v_sentiments l) k)
  ∧ (∀ k v, (k, v) ∈ items → is_empty_review v = Py.Returned true →
            Py.get (v_sentiments l') k = Some neutral).
Proof.
  induction items as [|[k v] rest IH]; intros l w l' w' Hrun Hnd Hl.
  - injection Hrun as <- <-. split_and!; [done|by rewrite app_nil_r|done|].
    intros k v Hin. by apply elem_of_nil in Hin.
  - rewrite for_items_cons in Hrun.
    destruct (loop_body l k v w) as [[l1|e] w1] eqn:Hbody; [|done].
    unfold Py.keys in Hnd. rewrite fmap_cons in Hnd. simpl in Hnd.
    assert (Hfresh : k ∉ Py.keys (v_sentiments l)).
    { apply NoDup_app in Hnd as (_ & Hdisj & _). intros Hk.
      apply (Hdisj k Hk). apply elem_of_cons. by left. }
    destruct (loop_body_step _ _ _ _ _ _ Hbody Hfresh Hl)
      as (lab & Hs1 & Hl1 & Hlab).
    assert (Hk1 : Py.keys (v_sentiments l1) = Py.keys (v_sentiments l) ++ [k]).
    { rewrite Hs1. unfold Py.keys. by rewrite fmap_app. }
    assert (Hnd1 : NoDup (Py.keys (v_sentiments l1) ++ Py.keys rest)).
    { rewrite Hk1, <- app_assoc. exact Hnd. }
    destruct (IH _ _ _ _ Hrun Hnd1 Hl1) as (Hl' & Hkeys & Hother & Hempty).
    assert (Hkrest : k ∉ Py.keys rest).
    { apply NoDup_app in Hnd as (_ & _ & Hr). by apply NoDup_cons in Hr as [? _]. }
    assert (Hget1 : ∀ k', Py.get (v_sentiments l1) k'
                     = if decide (k = k') then Some lab
                       else Py.get (v_sentiments l) k').
    { intros k'. rewrite Hs1, <- (set_fresh _ _ _ Hfresh).
      destruct (decide (k = k')) as [<-|Hne];
        [apply get_set_eq|by apply get_set_ne]. }
    split_and!.
    + done.
    + rewrite Hkeys, Hk1, <- app_assoc. done.
    + intros k' Hk'. unfold Py.keys in Hk'. rewrite fmap_cons in Hk'.
      apply not_elem_of_cons in Hk' as [Hne Hk']. simpl in Hne.
      rewrite Hother, Hget1 by done. by rewrite decide_False.
    + intros k' v' Hin Hv'. apply elem_of_cons in Hin as [[= -> ->]|Hin].
      * rewrite Hother, Hget1 by done. rewrite decide_True by done.
        by rewrite Hlab.
      * by apply (Hempty k' v').
Qed.

(** Whatever the loop comes to, it only adds calls made on texts that are
    not empty. *)
Lemma for_items_trace items : ∀ l w o w',
  for_items items l w = (o, w') →
  ∃ new, w' = w ++ new ∧ Forall on_nonempty_text new.
Proof.
  induction items as [|[k v] rest IH]; intros l w o w' Hrun.
  - injection Hrun as _ <-. exists []. by rewrite app_nil_r.
  - rewrite for_items_cons in Hrun.
    destruct (loop_body l k v w) as [[l1|e] w1] eqn:Hbody.
    + apply loop_body_trace in Hbody as (new1 & -> & Hnew1).
      apply IH in Hrun as (new2 & -> & Hnew2).
      exists (new1 ++ new2). rewrite app_assoc. split; [done|].
      by apply Forall_app.
    + injection Hrun as _ <-. by apply loop_body_trace in Hbody.
Qed.

(** The loop runs to its end when no emptiness check raises and the analyzer
    answers for every text that is not empty. *)
Lemma for_items_total items : ∀ l w,
  (∀ kv, kv ∈ items → ∃ b, is_empty_review kv.2 = Py.Returned b) →
  (∀ h kv, kv ∈ items → is_empty_review kv.2 = Py.Returned false →
           ∃ s, polarity_scores h kv.2 = Py.Returned s) →
  ∃ l' w', for_items items l w = (Py.Returned l', w').
Proof.
  induction items as [|[k v] rest IH]; intros l w Hchk Hans.
  - by exists l, w.
  - rewrite for_items_cons.
    assert (Hrest : ∃ l1 w1, loop_body l k v w = (Py.Returned l1, w1)).
    { destruct (Hchk (k, v)) as [[|] Hb]; [by left| |]; simpl in Hb.
      - rewrite loop_body_empty by done. by eexists _, _.
      - rewrite loop_body_nonempty by done.
        destruct (Hans (analyzer_history w) (k, v)) as [s Hs];
          [by left|done|]. simpl in Hs. rewrite Hs. by eexists _, _. }
    destruct Hrest as (l1 & w1 & ->). apply IH.
    + intros kv Hin. apply Hchk. by right.
    + intros h kv Hin. apply Hans. by right.
Qed.

(** An exception of the loop is the exception of one entry: of its emptiness
    check, or of the analyzer asked about its text. *)
Lemma for_items_raised items : ∀ l w e w',
  for_items items l w = (Py.Raised e, w') →
  ∃ kv, kv ∈ items
        ∧ (is_empty_review kv.2 = Py.Raised e
           ∨ (is_empty_review kv.2 = Py.Returned false
              ∧ ∃ h, polarity_scores h kv.2 = Py.Raised e)).
Proof.
  induction items as [|[k v] rest IH]; intros l w e w' Hrun; [done|].
  rewrite for_items_cons in Hrun.
  destruct (loop_body l k v w) as [[l1|e1] w1] eqn:Hbody.
  - apply IH in Hrun as (kv & Hin & Hkv). exists kv. split; [by right|done].
  - injection Hrun as -> ->. exists (k, v). split; [by left|]. simpl.
    destruct (is_empty_review v) as [[|]|e2] eqn:He.
    + by rewrite loop_body_empty in Hbody.
    + rewrite loop_body_nonempty in Hbody by done. right. split; [done|].
      exists (analyzer_history w).
      destruct (polarity_scores _ v); [done|]. by injection Hbody as -> _.
    + rewrite (loop_body_raises _ _ _ _ e2) in Hbody by done.
      left. by injection Hbody as -> _.
Qed.

(** ** The aggregator *)

Lemma analyze_reviews_run review_dict w :
  analyze_reviews review_dict w
  = match for_items review_dict (Locals [] 0 0 0)
            (w ++ [Call_analyze_reviews review_dict]) with
    | (Py.Returned l, w') =>
        (Py.Returned
           {| sentiments := v_sentiments l;
              summary := {| positive_count := v_positive_count l;
                            negative_count := v_negative_count l;
                            neutral_count := v_neutral_count l |} |}, w')
    | (Py.Raised e, w') => (Py.Raised e, w')
    end.
Proof.
  unfold analyze_reviews. run.
  by destruct (for_items review_dict _ _) as [[l|e] w'].
Qed.

Lemma tallied_init : tallied (Locals [] 0 0 0).
Proof. split_and!; try done. apply NoDup_nil_2. Qed.

(** What holds of every result the aggregator returns. *)
Lemma analyze_reviews_returned review_dict w out w' :
  Py.wf review_dict →
  analyze_reviews review_dict w = (Py.Returned out, w') →
  Py.wf (sentiments out)
  ∧ Py.keys (sentiments out) = Py.keys review_dict
  ∧ positive_count (summary out) = count_label positive (sentiments out)
  ∧ negative_count (summary out) = count_label negative (sentiments out)
  ∧ neutral_count (summary out) = count_label neutral (sentiments out)
  ∧ (∀ k v, (k, v) ∈ review_dict → is_empty_review v = Py.Returned true →
            Py.get (sentiments out) k = Some neutral).
Proof.
  intros Hwf Hrun. rewrite analyze_reviews_run in Hrun.
  destruct (for_items review_dict _ _) as [[l|e] w1] eqn:Hloop; [|done].
  injection Hrun as <- <-. simpl.
  destruct (for_items_returned _ _ _ _ _ Hloop Hwf tallied_init)
    as ((Hwf' & Hp & Hn & Hu) & Hkeys & _ & Hempty).
  by split_and!.
Qed.

(** The aggregator returns for a dictionary of texts the analyzer answers
    for. *)
Lemma analyze_reviews_total review_dict w :
  (∀ kv, kv ∈ review_dict → ∃ b, is_empty_review kv.2 = Py.Returned b) →
  answers_for review_dict →
  ∃ out w', analyze_reviews review_dict w = (Py.Returned out, w').
Proof.
  intros Hchk Hans. rewrite analyze_reviews_run.
  destruct (for_items_total review_dict (Locals [] 0 0 0)
              (w ++ [Call_analyze_reviews review_dict]) Hchk Hans)
    as (l & w' & ->).
  by eexists _, _.
Qed.

Lemma is_empty_review_text v :
  is_text v = true → ∃ b, is_empty_review v = Py.Returned b.
Proof.
  destruct v; try done. intros _. unfold is_empty_review. simpl.
  destruct (negb _); by eexists.
Qed.

Lemma ReviewSet_checks d kv :
  ReviewSet d → kv ∈ d → ∃ b, is_empty_review kv.2 = Py.Returned b.
Proof.
  intros [_ Htext] Hin. apply is_empty_review_text.
  by apply (proj1 (Forall_forall _ _) Htext).
Qed.

(** The calls of a run of the aggregator: its own, then calls on texts that
    are not empty. *)
Lemma analyze_reviews_trace review_dict w o w' :
  analyze_reviews review_dict w = (o, w') →
  ∃ new, w' = w ++ (Call_analyze_reviews review_dict :: new)
         ∧ Forall on_nonempty_text new.
Proof.
  intros Hrun. rewrite analyze_reviews_run in Hrun.
  destruct (for_items review_dict _ _) as [o1 w1] eqn:Hloop.
  apply for_items_trace in Hloop as (new & -> & Hnew).
  exists new. rewrite <- app_assoc in Hrun. simpl in Hrun.
  split; [|done]. by destruct o1; injection Hrun as _ <-.
Qed.

(** ** The classifier's decision rule *)

(** No score is on both sides: at or below [-0.05] is not at or above
    [0.05]. *)
Lemma float_le_not_ge score :
  Py.float_le score (SFopp Py.f0_05) = true → Py.float_ge score Py.f0_05 = false.
Proof. by destruct score as [[|]|[|]| |[|] m e]. Qed.

(** ** The thresholds as decimals *)

Lemma digits2_pos_bounds m :
  (2 ^ (Z.pos (digits2_pos m) - 1) ≤ Z.pos m < 2 ^ Z.pos (digits2_pos m))%Z.
Proof.
  induction m as [m IH|m IH|]; simpl digits2_pos.
  - rewrite Pos2Z.inj_succ.
    replace (Z.succ (Z.pos (digits2_pos m)) - 1)%Z
      with (Z.succ (Z.pos (digits2_pos m) - 1))%Z by lia.
    rewrite !Z.pow_succ_r by lia. lia.
  - rewrite Pos2Z.inj_succ.
    replace (Z.succ (Z.pos (digits2_pos m)) - 1)%Z
      with (Z.succ (Z.pos (digits2_pos m) - 1))%Z by lia.
    rewrite !Z.pow_succ_r by lia. lia.
  - simpl. lia.
Qed.

(** The magnitude [m * 2^e] of a binary64 number against one twentieth, by
    the place of its exponent. *)
Lemma magnitude_vs_a_twentieth m e :
  bounded 53 1024 m e = true →
  match e with
  | Z.neg k =>
      match (-57 ?= e)%Z with
      | Lt => (Z.pos (2 ^ k) ≤ 20 * Z.pos m)%Z
      | Eq => (Z.pos (2 ^ k) ≤ 20 * Z.pos m)%Z ↔ (7205759403792794 ≤ m)%positive
      | Gt => (20 * Z.pos m < Z.pos (2 ^ k))%Z
      end
  | _ => True
  end.
Proof.
  intros [Hcan _]%andb_prop. unfold canonical_mantissa, fexp, emin in Hcan.
  apply Z.eqb_eq in Hcan.
  destruct e as [|k|k]; try done.
  pose proof (digits2_pos_bounds m) as [Hlo Hhi].
  rewrite Pos2Z.inj_pow.
  destruct (Z.compare_spec (-57) (Z.neg k)) as [Heq|Hlt|Hgt].
  - injection Heq as <-. change (2 ^ 57)%Z with 144115188075855872%Z. lia.
  - assert (Hd : Z.pos (digits2_pos m) = 53%Z) by lia.
    rewrite Hd in Hlo. change (2 ^ (53 - 1))%Z with 4503599627370496%Z in Hlo.
    assert (2 ^ Z.pos k ≤ 2 ^ 56)%Z by (apply Z.pow_le_mono_r; lia).
    change (2 ^ 56)%Z with 72057594037927936%Z in *. lia.
  - assert (Hd : (Z.pos (digits2_pos m) ≤ 53)%Z) by lia.
    assert (2 ^ Z.pos (digits2_pos m) ≤ 2 ^ 53)%Z by (apply Z.pow_le_mono_r; lia).
    assert (2 ^ 58 ≤ 2 ^ Z.pos k)%Z by (apply Z.pow_le_mono_r; lia).
    change (2 ^ 53)%Z with 9007199254740992%Z in *.
    change (2 ^ 58)%Z with 288230376151711744%Z in *. lia.
Qed.

(** Two finite numbers of the same sign compare by exponent, then by
    mantissa. *)
Lemma SFleb_finite_nonneg m1 e1 m2 e2 :
  SFleb (S754_finite false m1 e1) (S754_finite false m2 e2)
  = match (e1 ?= e2)%Z with
    | Lt => true
    | Eq => (m1 <=? m2)%positive
    | Gt => false
    end.
Proof.
  unfold SFleb, SFcompare, Pos.leb, Pos.compare.
  by destruct (e1 ?= e2)%Z; [destruct (Pos.compare_cont _ _ _)| |].
Qed.

Lemma SFleb_finite_neg m1 e1 m2 e2 :
  SFleb (S754_finite true m1 e1) (S754_finite true m2 e2)
  = SFleb (S754_finite false m2 e2) (S754_finite false m1 e1).
Proof.
  unfold SFleb, SFcompare.
  rewrite (Z.compare_antisym e1 e2).
  assert (Hm : Pos.compare_cont Eq m2 m1 = CompOpp (Pos.compare_cont Eq m1 m2))
    by (symmetry; apply (Pos.compare_cont_antisym m1 m2 Eq)).
  rewrite Hm.
  destruct (e1 ?= e2)%Z; cbn [CompOpp]; [|done..].
  by destruct (Pos.compare_cont Eq m1 m2).
Qed.

Lemma float_ge_finite s m e :
  Py.float_ge (S754_finite s m e) Py.f0_05
  = if s then false
    else match (-57 ?= e)%Z with
         | Lt => true
         | Eq => (7205759403792794 <=? m)%positive
         | Gt => false
         end.
Proof.
  unfold Py.float_ge, Py.f0_05. destruct s; [reflexivity|].
  apply SFleb_finite_nonneg.
Qed.

Lemma float_le_finite s m e :
  Py.float_le (S754_finite s m e) (SFopp Py.f0_05)
  = if s then match (-57 ?= e)%Z with
              | Lt => true
              | Eq => (7205759403792794 <=? m)%positive
              | Gt => false
              end
    else false.
Proof.
  unfold Py.float_le, Py.f0_05. cbn [SFopp negb]. destruct s; [|reflexivity].
  rewrite SFleb_finite_neg. apply SFleb_finite_nonneg.
Qed.

Lemma magnitude_decimal m e :
  bounded 53 1024 m e = true →
  match (-57 ?= e)%Z with
  | Lt => true
  | Eq => (7205759403792794 <=? m)%positive
  | Gt => false
  end = true
  ↔ match e with
    | Z.neg k => (Z.pos (2 ^ k) ≤ 20 * Z.pos m)%Z
    | _ => True
    end.
Proof.
  intros Hb. pose proof (magnitude_vs_a_twentieth m e Hb) as Hmag.
  destruct e as [|k|k]; [done..|].
  destruct (-57 ?= Z.neg k)%Z.
  - rewrite Hmag. apply Pos.leb_le.
  - done.
  - split; [done|lia].
Qed.

(** X1. The decision rule read on the value of the score: positive from one
    twentieth up, negative from minus one twentieth down.  The literal
    [0.05] is a little above one twentieth, and no binary64 number lies
    between the two. *)
Lemma label_of_score_decimal x q :
  Py.binary64 x = true →
  Py.float_value x = Some q →
  (label_of_score x = positive ↔ (1 # 20 <= q)%Q)
  ∧ (label_of_score x = negative ↔ (q <= - (1 # 20))%Q).
Proof.
  destruct x as [s|s| |s m e]; try done.
  - intros _ [= <-]. by destruct s.
  - intros Hb [= <-]. pose proof (magnitude_decimal m e Hb) as Hmag.
    unfold label_of_score. rewrite float_ge_finite, float_le_finite.
    destruct (match (-57 ?= e)%Z with Lt => true | Eq => _ | Gt => false end)
      eqn:Hge.
    + assert (Hdec := proj1 Hmag eq_refl). clear Hmag Hge Hb.
      unfold Qle. destruct e as [|k|k]; cbn [Qnum Qden inject_Z Qopp].
      * change (2 ^ 0)%Z with 1%Z.
        destruct s; cbn [cond_Zopp]; split; split; try done; lia.
      * assert (0 < 2 ^ Z.pos k)%Z by (apply Z.pow_pos_nonneg; lia).
        destruct s; cbn [cond_Zopp]; split; split; try done; nia.
      * destruct s; cbn [cond_Zopp]; split; split; try done; lia.
    + assert (Hdec : ¬ match e with
                        | Z.neg k => (Z.pos (2 ^ k) ≤ 20 * Z.pos m)%Z
                        | _ => True
                        end) by (intros ?%Hmag; done).
      clear Hmag Hge Hb. unfold Qle.
      destruct e as [|k|k]; [done..|]. cbn [Qnum Qden Qopp].
      destruct s; cbn [cond_Zopp]; split; split; try done;
        intros ?; exfalso; lia.
Qed.

(** The scores that stand for no rational: an infinity is on its side of the
    thresholds, a NaN compares false both times. *)
Lemma label_of_score_special :
  label_of_score (S754_infinity false) = positive
  ∧ label_of_score (S754_infinity true) = negative
  ∧ label_of_score S754_nan = neutral.
Proof. by split_and!. Qed.

(** C1. For every text the analyzer scores, the classifier returns positive
    when the compound score is at least 0.05, negative when it is at most
    -0.05, and neutral otherwise; a score of exactly 0.05 gives positive and
    a score of exactly -0.05 gives negative. *)
Theorem classify_sentiment_thresholds text w s :
  polarity_scores (analyzer_history w) text = Py.Returned s →
  (Py.float_ge (compound s) Py.f0_05 = true →
     (classify_sentiment text w).1 = Py.Returned positive)
  ∧ (Py.float_le (compound s) (SFopp Py.f0_05) = true →
     (classify_sentiment text w).1 = Py.Returned negative)
  ∧ (Py.float_ge (compound s) Py.f0_05 = false →
     Py.float_le (compound s) (SFopp Py.f0_05) = false →
     (classify_sentiment text w).1 = Py.Returned neutral)
  ∧ (compound s = Py.f0_05 →
     (classify_sentiment text w).1 = Py.Returned positive)
  ∧ (compound s = SFopp Py.f0_05 →
     (classify_sentiment text w).1 = Py.Returned negative).
Proof.
  intros Hs.
  assert (Hrun : (classify_sentiment text w).1
                 = Py.Returned (label_of_score (compound s))).
  { by rewrite classify_sentiment_run, Hs. }
  rewrite Hrun. unfold label_of_score. split_and!.
  - by intros ->.
  - intros Hle. by rewrite (float_le_not_ge _ Hle), Hle.
  - by intros -> ->.
  - by intros ->.
  - by intros ->.
Qed.

(** C7. The classifier handles no error: when the analyzer raises, the
    classifier raises the same exception and returns no label. *)
Theorem classify_sentiment_propagates text w e :
  polarity_scores (analyzer_history w) text = Py.Raised e →
  (classify_sentiment text w).1 = Py.Raised e
  ∧ ∀ lab, (classify_sentiment text w).1 ≠ Py.Returned lab.
Proof. intros He. rewrite classify_sentiment_run, He. by split. Qed.


(** ** More on the decision rule *)

(** The order of binary64 numbers is transitive. *)
Lemma SFleb_trans x y z :
  SFleb x y = true → SFleb y z = true → SFleb x z = true.
Proof.
  destruct x as [sx|sx| |sx mx ex], y as [sy|sy| |sy my ey],
    z as [sz|sz| |sz mz ez]; try done;
    try (destruct sx, sy, sz; done);
    try (destruct sx, sy; done); try (destruct sy, sz; done);
    try (destruct sx, sz; done).
  destruct sx, sy, sz; try done.
  - rewrite !SFleb_finite_neg, !SFleb_finite_nonneg.
    destruct (Z.compare_spec ey ex), (Z.compare_spec ez ey),
      (Z.compare_spec ez ex); try done; try lia; subst.
    rewrite !Pos.leb_le. lia.
  - rewrite !SFleb_finite_nonneg.
    destruct (Z.compare_spec ex ey), (Z.compare_spec ey ez),
      (Z.compare_spec ex ez); try done; try lia; subst.
    rewrite !Pos.leb_le. lia.
Qed.

(** X2. A score that is not below another never gets a lower label:
    negative, neutral, positive follow the order of the scores. *)
Theorem label_of_score_monotone x y :
  Py.float_le x y = true →
  (rank (label_of_score x) ≤ rank (label_of_score y))%nat.
Proof.
  unfold Py.float_le. intros Hxy. unfold label_of_score.
  destruct (Py.float_ge x Py.f0_05) eqn:Hxp.
  - unfold Py.float_ge in *. by rewrite (SFleb_trans _ _ _ Hxp Hxy).
  - destruct (Py.float_le x (SFopp Py.f0_05)) eqn:Hxn.
    + simpl. lia.
    + destruct (Py.float_ge y Py.f0_05); [simpl; lia|].
      destruct (Py.float_le y (SFopp Py.f0_05)) eqn:Hyn; [|done].
      unfold Py.float_le in *. by rewrite (SFleb_trans _ _ _ Hxy Hyn) in Hxn.
Qed.

(** X3. The two thresholds mirror each other: the label of the negated score
    is the label of the score with positive and negative exchanged. *)
Theorem label_of_score_opp x :
  label_of_score (SFopp x) = mirror (label_of_score x).
Proof.
  destruct x as [s|s| |s m e]; try (by destruct s); try done.
  unfold label_of_score. cbn [SFopp].
  rewrite !float_ge_finite, !float_le_finite.
  destruct s; cbn [negb];
    by destruct (match (-57 ?= e)%Z with Lt => true | Eq => _ | Gt => false end).
Qed.

(** ** The aggregator's results *)

(** C2. For every ReviewSet the aggregator returns a result whose sentiments
    mapping has the keys of the ReviewSet, so as many entries, and whose three
    counts add up to the number of reviews. *)
Theorem analyze_reviews_keys_and_counts review_dict w :
  ReviewSet review_dict →
  answers_for review_dict →
  ∃ out w',
    analyze_reviews review_dict w = (Py.Returned out, w')
    ∧ Py.keys (sentiments out) = Py.keys review_dict
    ∧ dom (Py.to_map (sentiments out)) = dom (Py.to_map review_dict)
    ∧ size (Py.to_map (sentiments out)) = size (Py.to_map review_dict)
    ∧ length (sentiments out) = length review_dict
    ∧ (positive_count (summary out) + negative_count (summary out)
       + neutral_count (summary out))%nat = length review_dict.
Proof.
  intros Hrs Hans.
  destruct (analyze_reviews_total review_dict w) as (out & w' & Hrun);
    [intros kv; by apply ReviewSet_checks|done|].
  destruct Hrs as [Hwf _].
  destruct (analyze_reviews_returned _ _ _ _ Hwf Hrun)
    as (Hwf' & Hkeys & Hp & Hn & Hu & _).
  assert (Hlen : length (sentiments out) = length review_dict).
  { rewrite <- (length_fmap fst (sentiments out)),
            <- (length_fmap fst review_dict). by f_equal. }
  exists out, w'. split_and!; try done.
  - by rewrite !dom_to_map, Hkeys.
  - by rewrite !size_to_map.
  - by rewrite Hp, Hn, Hu, count_label_total.
Qed.

(** C3. For every ReviewSet each count of the summary is the number of ids
    the sentiments mapping gives that label; the ids the emptiness check took
    are in the mapping as neutral and so are counted there. *)
Theorem analyze_reviews_counts_tally review_dict w :
  ReviewSet review_dict →
  answers_for review_dict →
  ∃ out w',
    analyze_reviews review_dict w = (Py.Returned out, w')
    ∧ positive_count (summary out) = count_label positive (sentiments out)
    ∧ negative_count (summary out) = count_label negative (sentiments out)
    ∧ neutral_count (summary out) = count_label neutral (sentiments out)
    ∧ (∀ k v, (k, v) ∈ review_dict → is_empty_review v = Py.Returned true →
              Py.to_map (sentiments out) !! k = Some neutral).
Proof.
  intros Hrs Hans.
  destruct (analyze_reviews_total review_dict w) as (out & w' & Hrun);
    [intros kv; by apply ReviewSet_checks|done|].
  destruct Hrs as [Hwf _].
  destruct (analyze_reviews_returned _ _ _ _ Hwf Hrun)
    as (Hwf' & _ & Hp & Hn & Hu & Hempty).
  exists out, w'. split_and!; try done.
  intros k v Hin Hv. rewrite <- get_to_map by done. by apply (Hempty k v).
Qed.

(** ** Empty reviews *)

Lemma lstrip_all_space s : forallb Py.isspace s = true → Py.lstrip s = [].
Proof.
  induction s as [|c s IH]; [done|]. simpl.
  intros [Hc Hs]%andb_prop. rewrite Hc. by apply IH.
Qed.

Lemma is_empty_review_blank s :
  forallb Py.isspace s = true → is_empty_review (Py.Str s) = Py.Returned true.
Proof.
  intros Hs. unfold is_empty_review, Py.strip_method, Py.strip.
  rewrite (lstrip_all_space s Hs). by destruct (negb _).
Qed.

Lemma is_empty_review_falsy v :
  Py.truthy v = false → is_empty_review v = Py.Returned true.
Proof. intros Hv. unfold is_empty_review. by rewrite Hv. Qed.

(** ** More on the emptiness check *)

Lemma lstrip_nil s : Py.lstrip s = [] → forallb Py.isspace s = true.
Proof.
  induction s as [|c s IH]; [done|]. simpl.
  destruct (Py.isspace c); [exact IH|done].
Qed.

Lemma lstrip_lstrip s : Py.lstrip (Py.lstrip s) = Py.lstrip s.
Proof.
  induction s as [|c s IH]; [done|]. simpl.
  destruct (Py.isspace c) eqn:Hc; [exact IH|]. simpl. by rewrite Hc.
Qed.

Lemma forallb_isspace_rev s :
  forallb Py.isspace (rev s) = true → forallb Py.isspace s = true.
Proof.
  rewrite !forallb_forall. intros H x Hx. apply H. by apply in_rev in Hx.
Qed.

Lemma strip_nil s : Py.strip s = [] ↔ forallb Py.isspace s = true.
Proof.
  split.
  - unfold Py.strip, Py.rstrip. intros Hs. apply lstrip_nil.
    assert (Hr : Py.lstrip (rev (Py.lstrip s)) = []).
    { rewrite <- (rev_involutive (Py.lstrip (rev (Py.lstrip s)))).
      by rewrite Hs. }
    apply lstrip_nil, forallb_isspace_rev, lstrip_all_space in Hr.
    by rewrite lstrip_lstrip in Hr.
  - intros Hs. unfold Py.strip. by rewrite (lstrip_all_space s Hs).
Qed.

(** X4. The emptiness check on a string never raises, and it takes the text
    exactly when every character of it is whitespace: a text with one other
    character goes to the classifier. *)
Theorem is_empty_review_iff_whitespace s :
  is_empty_review (Py.Str s) = Py.Returned (forallb Py.isspace s).
Proof.
  destruct (forallb Py.isspace s) eqn:Hs; [by apply is_empty_review_blank|].
  unfold is_empty_review, Py.strip_method. cbn [Py.truthy].
  assert (Hne : s ≠ []) by (by intros ->).
  assert (Hstrip : Py.strip s ≠ []).
  { intros Hnil%strip_nil. congruence. }
  by rewrite !bool_decide_eq_false_2.
Qed.

(** C4. A review whose text is empty or all whitespace is labelled neutral
    whatever the analyzer is: its turn of the loop makes no call, and in no
    run of the aggregator is the classifier or the analyzer called on that
    text. *)
Theorem empty_text_is_neutral review_dict review_id s w :
  Py.wf review_dict →
  (review_id, Py.Str s) ∈ review_dict →
  forallb Py.isspace s = true →
  (∀ l w0,
     loop_body l review_id (Py.Str s) w0
     = (Py.Returned (Locals (Py.set (v_sentiments l) review_id neutral)
                       (v_positive_count l) (v_negative_count l)
                       (v_neutral_count l + 1)), w0))
  ∧ (∀ o w', analyze_reviews review_dict w = (o, w') →
       ∃ new, w' = w ++ (Call_analyze_reviews review_dict :: new)
              ∧ (Call_classify_sentiment (Py.Str s) ∉ new)
              ∧ (Call_polarity_scores (Py.Str s) ∉ new))
  ∧ (∀ out w', analyze_reviews review_dict w = (Py.Returned out, w') →
       Py.get (sentiments out) review_id = Some neutral).
Proof.
  intros Hwf Hin Hs. pose proof (is_empty_review_blank s Hs) as He.
  split_and!.
  - intros l w0. by apply loop_body_empty.
  - intros o w' Hrun.
    apply analyze_reviews_trace in Hrun as (new & -> & Hnew).
    exists new. split_and!; [done| |];
      intros Hc; apply (proj1 (Forall_forall _ _) Hnew) in Hc;
      simpl in Hc; congruence.
  - intros out w' Hrun.
    destruct (analyze_reviews_returned _ _ _ _ Hwf Hrun)
      as (_ & _ & _ & _ & _ & Hempty).
    by apply (Hempty review_id (Py.Str s)).
Qed.

(** C9. A text that is falsy and not a string (None, False, 0, 0.0, an empty
    list or dictionary) has no [strip] method, but the emptiness check is
    decided by its truth value before [strip] is called: the check returns,
    the turn of the loop returns with the id labelled neutral and no call
    made, and a result of the aggregator has the id as neutral. *)
Theorem falsy_text_is_neutral v :
  is_text v = false →
  Py.truthy v = false →
  (∃ e, Py.strip_method v = Py.Raised e)
  ∧ is_empty_review v = Py.Returned true
  ∧ (∀ l review_id w,
       loop_body l review_id v w
       = (Py.Returned (Locals (Py.set (v_sentiments l) review_id neutral)
                         (v_positive_count l) (v_negative_count l)
                         (v_neutral_count l + 1)), w))
  ∧ (∀ review_dict review_id w out w',
       Py.wf review_dict → (review_id, v) ∈ review_dict →
       analyze_reviews review_dict w = (Py.Returned out, w') →
       Py.get (sentiments out) review_id = Some neutral).
Proof.
  intros Hnt Hv. pose proof (is_empty_review_falsy v Hv) as He.
  split_and!.
  - destruct v; try done; by eexists.
  - done.
  - intros l review_id w. by apply loop_body_empty.
  - intros review_dict review_id w out w' Hwf Hin Hrun.
    destruct (analyze_reviews_returned _ _ _ _ Hwf Hrun)
      as (_ & _ & _ & _ & _ & Hempty).
    by apply (Hempty review_id v).
Qed.

(** C10. Called on an empty dictionary the aggregator returns, without
    error and without calling the classifier, an empty sentiments mapping
    and three counts of zero. *)
Theorem analyze_reviews_empty_dict w :
  analyze_reviews [] w
  = (Py.Returned {| sentiments := [];
                    summary := {| positive_count := 0;
                                  negative_count := 0;
                                  neutral_count := 0 |} |},
     w ++ [Call_analyze_reviews []]).
Proof. reflexivity. Qed.

(** ** More on the aggregator *)

Lemma loop_body_calls l review_id review_text w o w1 :
  loop_body l review_id review_text w = (o, w1) →
  w1 = w ++ calls_of_review review_text.
Proof.
  intros Hrun. unfold calls_of_review, goes_to_classifier.
  destruct (is_empty_review review_text) as [[|]|e] eqn:He.
  - rewrite loop_body_empty in Hrun by done. injection Hrun as _ <-.
    by rewrite app_nil_r.
  - rewrite loop_body_nonempty in Hrun by done. by injection Hrun as _ <-.
  - rewrite (loop_body_raises _ _ _ _ e) in Hrun by done.
    injection Hrun as _ <-. by rewrite app_nil_r.
Qed.

Lemma loop_body_labelled l review_id review_text w l1 w1 :
  loop_body l review_id review_text w = (Py.Returned l1, w1) →
  ∃ lab, v_sentiments l1 = Py.set (v_sentiments l) review_id lab
         ∧ labelled review_text lab.
Proof.
  intros Hrun. destruct (is_empty_review review_text) as [[|]|e] eqn:He.
  - rewrite loop_body_empty in Hrun by done. injection Hrun as <- _.
    exists neutral. split; [done|by left].
  - rewrite loop_body_nonempty in Hrun by done.
    destruct (polarity_scores _ review_text) as [s|e] eqn:Hs; [|done].
    injection Hrun as <- _. exists (label_of_score (compound s)).
    split; [done|]. right. split; [done|]. by eexists _, _.
  - by rewrite (loop_body_raises _ _ _ _ e) in Hrun.
Qed.

(** The loop over two lists in a row. *)
Lemma for_items_app pre rest : ∀ l w,
  for_items (pre ++ rest) l w
  = match for_items pre l w with
    | (Py.Returned l1, w1) => for_items rest l1 w1
    | (Py.Raised e, w1) => (Py.Raised e, w1)
    end.
Proof.
  induction pre as [|[k v] pre IH]; intros l w; [done|].
  rewrite <- app_comm_cons, !for_items_cons.
  destruct (loop_body l k v w) as [[l1|e] w1]; [apply IH|done].
Qed.

Lemma calls_of_reviews_cons k v items :
  calls_of_reviews ((k, v) :: items) = calls_of_review v ++ calls_of_reviews items.
Proof. reflexivity. Qed.

Lemma calls_of_reviews_app pre rest :
  calls_of_reviews (pre ++ rest) = calls_of_reviews pre ++ calls_of_reviews rest.
Proof. unfold calls_of_reviews. by rewrite map_app, concat_app. Qed.

(** A loop that returns has labelled every entry, in order, and made the
    calls of every entry, in order. *)
Lemma for_items_labelled items : ∀ l w l' w',
  for_items items l w = (Py.Returned l', w') →
  NoDup (Py.keys (v_sentiments l) ++ Py.keys items) →
  ∃ labs, v_sentiments l' = v_sentiments l ++ labs
          ∧ Forall2 (fun kv kl => kl.1 = kv.1 ∧ labelled kv.2 kl.2) items labs
          ∧ w' = w ++ calls_of_reviews items.
Proof.
  induction items as [|[k v] rest IH]; intros l w l' w' Hrun Hnd.
  - injection Hrun as <- <-. exists []. by rewrite !app_nil_r.
  - rewrite for_items_cons in Hrun.
    destruct (loop_body l k v w) as [[l1|e] w1] eqn:Hbody; [|done].
    unfold Py.keys in Hnd. rewrite fmap_cons in Hnd. simpl in Hnd.
    assert (Hfresh : k ∉ Py.keys (v_sentiments l)).
    { apply NoDup_app in Hnd as (_ & Hdisj & _). intros Hk.
      apply (Hdisj k Hk). apply elem_of_cons. by left. }
    pose proof (loop_body_calls _ _ _ _ _ _ Hbody) as ->.
    destruct (loop_body_labelled _ _ _ _ _ _ Hbody) as (lab & Hs1 & Hlab).
    rewrite set_fresh in Hs1 by done.
    assert (Hnd1 : NoDup (Py.keys (v_sentiments l1) ++ Py.keys rest)).
    { rewrite Hs1. unfold Py.keys. rewrite fmap_app, <- app_assoc. exact Hnd. }
    destruct (IH _ _ _ _ Hrun Hnd1) as (labs & Hs' & Hall & ->).
    exists ((k, lab) :: labs). split_and!.
    + by rewrite Hs', Hs1, <- app_assoc.
    + by constructor.
    + by rewrite calls_of_reviews_cons, app_assoc.
Qed.

(** A loop that raises stopped at one entry: the entries before it were
    labelled, the exception is that entry's, and nothing was called for the
    entries after it. *)
Lemma for_items_raised_at items : ∀ l w e w',
  for_items items l w = (Py.Raised e, w') →
  ∃ pre k v post,
    items = pre ++ (k, v) :: post
    ∧ Forall (fun kv => ∃ lab, labelled kv.2 lab) pre
    ∧ (is_empty_review v = Py.Raised e
       ∨ (is_empty_review v = Py.Returned false
          ∧ polarity_scores (analyzer_history (w ++ calls_of_reviews pre)) v
            = Py.Raised e))
    ∧ w' = w ++ calls_of_reviews pre ++ calls_of_review v.
Proof.
  induction items as [|[k v] rest IH]; intros l w e w' Hrun; [done|].
  rewrite for_items_cons in Hrun.
  destruct (loop_body l k v w) as [[l1|e1] w1] eqn:Hbody.
  - pose proof (loop_body_calls _ _ _ _ _ _ Hbody) as ->.
    destruct (loop_body_labelled _ _ _ _ _ _ Hbody) as (lab & _ & Hlab).
    apply IH in Hrun as (pre & k' & v' & post & -> & Hpre & Hfail & ->).
    exists ((k, v) :: pre), k', v', post. split_and!.
    + done.
    + constructor; [by exists lab|done].
    + rewrite calls_of_reviews_cons, app_assoc. exact Hfail.
    + by rewrite calls_of_reviews_cons, <- !app_assoc.
  - injection Hrun as -> ->.
    pose proof (loop_body_calls _ _ _ _ _ _ Hbody) as Hw.
    exists [], k, v, rest. split_and!; [done|constructor| |by rewrite Hw].
    unfold calls_of_reviews. simpl. rewrite app_nil_r.
    destruct (is_empty_review v) as [[|]|e2] eqn:He.
    + by rewrite loop_body_empty in Hbody.
    + rewrite loop_body_nonempty in Hbody by done. right. split; [done|].
      destruct (polarity_scores _ v); [done|]. by injection Hbody as -> _.
    + rewrite (loop_body_raises _ _ _ _ e2) in Hbody by done.
      left. by injection Hbody as -> _.
Qed.

Lemma for_items_calls items : ∀ l w l' w',
  for_items items l w = (Py.Returned l', w') →
  w' = w ++ calls_of_reviews items.
Proof.
  induction items as [|[k v] rest IH]; intros l w l' w' Hrun.
  - injection Hrun as _ <-. by rewrite app_nil_r.
  - rewrite for_items_cons in Hrun.
    destruct (loop_body l k v w) as [[l1|e] w1] eqn:Hbody; [|done].
    pose proof (loop_body_calls _ _ _ _ _ _ Hbody) as ->.
    apply IH in Hrun as ->. by rewrite calls_of_reviews_cons, app_assoc.
Qed.

Lemma analyzer_history_app w1 w2 :
  analyzer_history (w1 ++ w2) = analyzer_history w1 ++ analyzer_history w2.
Proof. unfold analyzer_history. apply omap_app. Qed.

Lemma analyzer_history_calls items :
  analyzer_history (calls_of_reviews items)
  = filter (fun v => goes_to_classifier v = true) items.*2.
Proof.
  induction items as [|[k v] rest IH]; [done|].
  rewrite calls_of_reviews_cons, analyzer_history_app, IH, fmap_cons.
  rewrite filter_cons. unfold calls_of_review. simpl.
  by destruct (goes_to_classifier v).
Qed.

Lemma analyze_reviews_labels review_dict w out w' :
  Py.wf review_dict →
  analyze_reviews review_dict w = (Py.Returned out, w') →
  Forall2 (fun kv kl => kl.1 = kv.1 ∧ labelled kv.2 kl.2)
    review_dict (sentiments out).
Proof.
  intros Hwf Hrun. rewrite analyze_reviews_run in Hrun.
  destruct (for_items review_dict _ _) as [[l|e] w1] eqn:Hloop; [|done].
  injection Hrun as <- _. simpl.
  by destruct (for_items_labelled _ _ _ _ _ Hloop Hwf) as (labs & -> & Hall & _).
Qed.

(** X5. In a result of the aggregator every id carries, in the order of the
    input, the label of its own text: neutral when the emptiness check took
    the text, and otherwise the rule applied to a score the analyzer returned
    for that text. *)
Theorem analyze_reviews_pointwise review_dict w out w' :
  Py.wf review_dict →
  analyze_reviews review_dict w = (Py.Returned out, w') →
  Forall2 (fun kv kl => kl.1 = kv.1 ∧ labelled kv.2 kl.2)
    review_dict (sentiments out).
Proof.
  intros Hwf Hrun. rewrite analyze_reviews_run in Hrun.
  destruct (for_items review_dict _ _) as [[l|e] w1] eqn:Hloop; [|done].
  injection Hrun as <- _. simpl.
  by destruct (for_items_labelled _ _ _ _ _ Hloop Hwf) as (labs & -> & Hall & _).
Qed.

(** X6. A run of the aggregator that returns has asked the analyzer exactly
    once for every text the emptiness check lets through, in the order of the
    input, and for no other text. *)
Theorem analyze_reviews_calls review_dict w out w' :
  analyze_reviews review_dict w = (Py.Returned out, w') →
  w' = w ++ Call_analyze_reviews review_dict :: calls_of_reviews review_dict
  ∧ analyzer_history w'
    = analyzer_history w
      ++ filter (fun v => goes_to_classifier v = true) review_dict.*2.
Proof.
  intros Hrun. rewrite analyze_reviews_run in Hrun.
  destruct (for_items review_dict _ _) as [[l|e] w1] eqn:Hloop; [|done].
  injection Hrun as _ <-. apply for_items_calls in Hloop as ->.
  rewrite <- app_assoc. split; [done|].
  rewrite analyzer_history_app. f_equal.
  apply (analyzer_history_calls review_dict).
Qed.

Lemma is_empty_review_wrong_type v :
  is_text v = false → Py.truthy v = true →
  is_empty_review v
  = Py.Raised (Py.Exn Py.AttributeError
      (Py.lit "'" ++ Py.type_name v
         ++ Py.lit "' object has no attribute 'strip'")).
Proof.
  intros Hnt Hv. unfold is_empty_review. rewrite Hv. by destruct v.
Qed.

Lemma analyze_reviews_raises_wrong_type pre review_id v post w :
  (∀ kv, kv ∈ pre → ∃ b, is_empty_review kv.2 = Py.Returned b) →
  answers_for pre →
  is_text v = false →
  Py.truthy v = true →
  analyze_reviews (pre ++ (review_id, v) :: post) w
  = (Py.Raised (Py.Exn Py.AttributeError
       (Py.lit "'" ++ Py.type_name v
          ++ Py.lit "' object has no attribute 'strip'")),
     w ++ Call_analyze_reviews (pre ++ (review_id, v) :: post)
       :: calls_of_reviews pre).
Proof.
  intros Hchk Hans Hnt Hv. rewrite analyze_reviews_run, for_items_app.
  destruct (for_items_total pre (Locals [] 0 0 0)
              (w ++ [Call_analyze_reviews (pre ++ (review_id, v) :: post)])
              Hchk Hans) as (l1 & w1 & Hpre).
  rewrite Hpre. apply for_items_calls in Hpre as ->.
  rewrite for_items_cons.
  rewrite (loop_body_raises _ _ _ _ _ (is_empty_review_wrong_type v Hnt Hv)).
  by rewrite <- app_assoc.
Qed.

(** X7. A review whose text is truthy and not a string (a number, [true], a
    list or an object that is not empty) fails the whole aggregation: when
    the reviews before it pass, the aggregator raises the [AttributeError] of
    [strip] for that value, returns no result, and makes no call for that
    review or any later one. *)
Theorem analyze_reviews_wrong_type pre review_id v post w :
  (∀ kv, kv ∈ pre → ∃ b, is_empty_review kv.2 = Py.Returned b) →
  answers_for pre →
  is_text v = false →
  Py.truthy v = true →
  analyze_reviews (pre ++ (review_id, v) :: post) w
  = (Py.Raised (Py.Exn Py.AttributeError
       (Py.lit "'" ++ Py.type_name v
          ++ Py.lit "' object has no attribute 'strip'")),
     w ++ Call_analyze_reviews (pre ++ (review_id, v) :: post)
       :: calls_of_reviews pre).
Proof.
  intros Hchk Hans Hnt Hv. rewrite analyze_reviews_run, for_items_app.
  destruct (for_items_total pre (Locals [] 0 0 0)
              (w ++ [Call_analyze_reviews (pre ++ (review_id, v) :: post)])
              Hchk Hans) as (l1 & w1 & Hpre).
  rewrite Hpre. apply for_items_calls in Hpre as ->.
  rewrite for_items_cons.
  rewrite (loop_body_raises _ _ _ _ _ (is_empty_review_wrong_type v Hnt Hv)).
  by rewrite <- app_assoc.
Qed.

Lemma analyze_reviews_raised_at review_dict w e w' :
  analyze_reviews review_dict w = (Py.Raised e, w') →
  ∃ pre review_id review_text post,
    review_dict = pre ++ (review_id, review_text) :: post
    ∧ Forall (fun kv => ∃ lab, labelled kv.2 lab) pre
    ∧ (is_empty_review review_text = Py.Raised e
       ∨ (is_empty_review review_text = Py.Returned false
          ∧ polarity_scores
              (analyzer_history
                 (w ++ Call_analyze_reviews review_dict :: calls_of_reviews pre))
              review_text
            = Py.Raised e))
    ∧ w' = w ++ Call_analyze_reviews review_dict
             :: calls_of_reviews pre ++ calls_of_review review_text.
Proof.
  intros Hrun. rewrite analyze_reviews_run in Hrun.
  destruct (for_items review_dict _ _) as [[l|e1] w1] eqn:Hloop; [done|].
  injection Hrun as -> ->.
  apply for_items_raised_at in Hloop
    as (pre & k & v & post & Hd & Hpre & Hfail & ->).
  exists pre, k, v, post. rewrite <- !app_assoc in *. simpl in *.
  by split_and!.
Qed.

(** X8. A run of the aggregator that raises stopped at one review: every
    review before it was labelled, the exception is that of its emptiness
    check or of the analyzer asked about its text, and no call was made for
    any review after it. *)
Theorem analyze_reviews_stops_at_first_failure review_dict w e w' :
  analyze_reviews review_dict w = (Py.Raised e, w') →
  ∃ pre review_id review_text post,
    review_dict = pre ++ (review_id, review_text) :: post
    ∧ Forall (fun kv => ∃ lab, labelled kv.2 lab) pre
    ∧ (is_empty_review review_text = Py.Raised e
       ∨ (is_empty_review review_text = Py.Returned false
          ∧ polarity_scores
              (analyzer_history
                 (w ++ Call_analyze_reviews review_dict :: calls_of_reviews pre))
              review_text
            = Py.Raised e))
    ∧ w' = w ++ Call_analyze_reviews review_dict
             :: calls_of_reviews pre ++ calls_of_review review_text.
Proof.
  intros Hrun. rewrite analyze_reviews_run in Hrun.
  destruct (for_items review_dict _ _) as [[l|e1] w1] eqn:Hloop; [done|].
  injection Hrun as -> ->.
  apply for_items_raised_at in Hloop
    as (pre & k & v & post & Hd & Hpre & Hfail & ->).
  exists pre, k, v, post. rewrite <- !app_assoc in *. simpl in *.
  by split_and!.
Qed.

Lemma labelled_label_now v lab :
  stateless → labelled v lab → lab = label_now v.
Proof.
  intros Hst [[He ->]|[He (h & s & Hs & ->)]];
    unfold label_now, goes_to_classifier; rewrite He; [done|].
  by rewrite (Hst [] h), Hs.
Qed.

Lemma Forall2_label_now (d : Py.dict Py.value) (labs : Py.dict SentimentLabel) :
  stateless →
  Forall2 (fun kv kl => kl.1 = kv.1 ∧ labelled kv.2 kl.2) d labs →
  labs = map (fun kv => (kv.1, label_now kv.2)) d.
Proof.
  intros Hst Hall.
  induction Hall as [|[k v] [k' lab] d labs [Hk Hlab] _ IH]; [done|].
  simpl in *. subst k'. by rewrite IH, (labelled_label_now v lab Hst Hlab).
Qed.

Lemma Forall2_labelled (d : Py.dict Py.value) (labs : Py.dict SentimentLabel) :
  Forall2 (fun kv kl => kl.1 = kv.1 ∧ labelled kv.2 kl.2) d labs →
  Forall (fun kv => ∃ lab, labelled kv.2 lab) d.
Proof.
  intros Hall. induction Hall as [|kv kl d labs [_ Hlab] _ IH]; [done|].
  constructor; [by exists kl.2|done].
Qed.

Lemma sentiments_label_now review_dict w out w' :
  stateless → Py.wf review_dict →
  analyze_reviews review_dict w = (Py.Returned out, w') →
  sentiments out = map (fun kv => (kv.1, label_now kv.2)) review_dict.
Proof.
  intros Hst Hwf Hrun. apply Forall2_label_now; [done|].
  by apply (analyze_reviews_labels _ w _ w').
Qed.

Lemma count_label_Permutation lab (d d' : Py.dict SentimentLabel) :
  d ≡ₚ d' → count_label lab d = count_label lab d'.
Proof. intros Hp. unfold count_label. by rewrite Hp. Qed.

(** X9. For an analyzer that does not depend on what it was asked before, the
    order of the reviews does not matter: when the aggregator returns for a
    dictionary it returns for every reordering of it, with the same summary
    and the same label for every id. *)
Theorem analyze_reviews_order_irrelevant review_dict review_dict' w out w1 :
  stateless →
  Py.wf review_dict →
  review_dict ≡ₚ review_dict' →
  analyze_reviews review_dict w = (Py.Returned out, w1) →
  ∃ out' w2,
    analyze_reviews review_dict' w = (Py.Returned out', w2)
    ∧ sentiments out' ≡ₚ sentiments out
    ∧ summary out' = summary out.
Proof.
  intros Hst Hwf Hperm Hrun.
  assert (Hwf' : Py.wf review_dict').
  { unfold Py.wf, Py.keys in *. by rewrite <- Hperm. }
  pose proof (analyze_reviews_labels _ _ _ _ Hwf Hrun) as Hall.
  assert (Hlab : ∀ kv, kv ∈ review_dict → ∃ lab, labelled kv.2 lab).
  { apply Forall_forall. by apply (Forall2_labelled _ (sentiments out)). }
  destruct (analyze_reviews review_dict' w) as [[out'|e] w2] eqn:Hrun'.
  - exists out', w2. split; [done|].
    pose proof (sentiments_label_now _ _ _ _ Hst Hwf Hrun) as Hs.
    pose proof (sentiments_label_now _ _ _ _ Hst Hwf' Hrun') as Hs'.
    assert (Hps : sentiments out' ≡ₚ sentiments out).
    { rewrite Hs, Hs'. by apply Permutation_map. }
    split; [done|].
    destruct (analyze_reviews_returned _ _ _ _ Hwf Hrun)
      as (_ & _ & Hp & Hn & Hu & _).
    destruct (analyze_reviews_returned _ _ _ _ Hwf' Hrun')
      as (_ & _ & Hp' & Hn' & Hu' & _).
    rewrite (count_label_Permutation positive _ _ Hps) in Hp'.
    rewrite (count_label_Permutation negative _ _ Hps) in Hn'.
    rewrite (count_label_Permutation neutral _ _ Hps) in Hu'.
    destruct (summary out), (summary out'). simpl in *. congruence.
  - exfalso.
    apply analyze_reviews_raised_at in Hrun'
      as (pre & k & v & post & Hd & _ & Hfail & _).
    assert (Hin : (k, v) ∈ review_dict).
    { rewrite Hperm, Hd. apply elem_of_app. right. by left. }
    destruct (Hlab _ Hin) as (lab & Hcase). simpl in Hcase.
    destruct Hcase as [[He _]|[He (h & s & Hs & _)]].
    + destruct Hfail as [Hf|[Hf _]]; congruence.
    + destruct Hfail as [Hf|[_ Hf]]; [congruence|].
      rewrite (Hst _ h) in Hf. congruence.
Qed.

Lemma for_items_all_empty items : ∀ l w,
  NoDup (Py.keys (v_sentiments l) ++ Py.keys items) →
  Forall (fun kv => is_empty_review kv.2 = Py.Returned true) items →
  for_items items l w
  = (Py.Returned
       (Locals (v_sentiments l ++ map (fun kv => (kv.1, neutral)) items)
          (v_positive_count l) (v_negative_count l)
          (v_neutral_count l + length items)), w).
Proof.
  induction items as [|[k v] rest IH]; intros l w Hnd Hall.
  - simpl. rewrite app_nil_r, Nat.add_0_r. by destruct l.
  - apply Forall_cons in Hall as [Hv Hall]. simpl in Hv.
    unfold Py.keys in Hnd. rewrite fmap_cons in Hnd. simpl in Hnd.
    assert (Hfresh : k ∉ Py.keys (v_sentiments l)).
    { apply NoDup_app in Hnd as (_ & Hdisj & _). intros Hk.
      apply (Hdisj k Hk). apply elem_of_cons. by left. }
    rewrite for_items_cons, loop_body_empty by done.
    rewrite IH; simpl.
    + rewrite set_fresh by done. rewrite <- app_assoc. simpl.
      do 3 f_equal. lia.
    + rewrite keys_set_fresh by done. by rewrite <- app_assoc.
    + done.
Qed.

(** X10. A dictionary in which the emptiness check takes every text (blank
    strings, null, zero, empty lists) gives every id the label neutral and
    the counts zero, zero and the number of reviews, whatever the analyzer
    is, and the analyzer is never asked. *)
Theorem analyze_reviews_all_empty review_dict w :
  Py.wf review_dict →
  Forall (fun kv => is_empty_review kv.2 = Py.Returned true) review_dict →
  analyze_reviews review_dict w
  = (Py.Returned
       {| sentiments := map (fun kv => (kv.1, neutral)) review_dict;
          summary := {| positive_count := 0; negative_count := 0;
                        neutral_count := length review_dict |} |},
     w ++ [Call_analyze_reviews review_dict]).
Proof.
  intros Hwf Hall. rewrite analyze_reviews_run.
  by rewrite for_items_all_empty.
Qed.

Lemma count_label_label_now lab (d : Py.dict Py.value) :
  count_label lab (map (fun kv => (kv.1, label_now kv.2)) d)
  = length (filter (fun kv => label_now kv.2 = lab) d).
Proof.
  unfold count_label. induction d as [|[k v] d IH]; [done|].
  simpl. rewrite !filter_cons. simpl.
  destruct (decide (label_now v = lab)); simpl; by rewrite IH.
Qed.

(** X14. For an analyzer that does not depend on what it was asked before,
    each count of the summary is the number of uploaded reviews whose own
    text gets that label: positive counts the texts scored at or above 0.05,
    negative those at or below -0.05, neutral the rest and the empty ones. *)
Theorem analyze_reviews_counts_by_text review_dict w out w' :
  stateless →
  Py.wf review_dict →
  analyze_reviews review_dict w = (Py.Returned out, w') →
  positive_count (summary out)
  = length (filter (fun kv => label_now kv.2 = positive) review_dict)
  ∧ negative_count (summary out)
    = length (filter (fun kv => label_now kv.2 = negative) review_dict)
  ∧ neutral_count (summary out)
    = length (filter (fun kv => label_now kv.2 = neutral) review_dict).
Proof.
  intros Hst Hwf Hrun.
  destruct (analyze_reviews_returned _ _ _ _ Hwf Hrun)
    as (_ & _ & -> & -> & -> & _).
  rewrite (sentiments_label_now _ _ _ _ Hst Hwf Hrun).
  by rewrite !count_label_label_now.
Qed.

(** A review the analyzer fails on: when the reviews before it pass, the
    aggregator raises the analyzer's exception right after asking. *)
Lemma analyze_reviews_analyzer_failure pre review_id v post e w :
  (∀ kv, kv ∈ pre → ∃ b, is_empty_review kv.2 = Py.Returned b) →
  answers_for pre →
  is_empty_review v = Py.Returned false →
  (∀ h, polarity_scores h v = Py.Raised e) →
  analyze_reviews (pre ++ (review_id, v) :: post) w
  = (Py.Raised e,
     w ++ Call_analyze_reviews (pre ++ (review_id, v) :: post)
       :: calls_of_reviews pre
          ++ [Call_classify_sentiment v; Call_polarity_scores v]).
Proof.
  intros Hchk Hans Hv He. rewrite analyze_reviews_run, for_items_app.
  destruct (for_items_total pre (Locals [] 0 0 0)
              (w ++ [Call_analyze_reviews (pre ++ (review_id, v) :: post)])
              Hchk Hans) as (l1 & w1 & Hpre).
  rewrite Hpre. apply for_items_calls in Hpre as ->.
  rewrite for_items_cons, loop_body_nonempty by done.
  rewrite He. by rewrite <- !app_assoc.
Qed.

(** ** The upload boundary *)

Lemma mem_get {V} (d : Py.dict V) k :
  Py.mem d k = true ↔ is_Some (Py.get d k).
Proof.
  unfold Py.mem, Py.keys. rewrite bool_decide_eq_true.
  induction d as [|[k' v'] d IH]; csimpl.
  - split; [by intros ?%elem_of_nil|by intros [? ?]].
  - rewrite elem_of_cons. destruct (decide (k' = k)) as [->|Hne].
    + split; [by eexists|by left].
    + rewrite <- IH. split; [by intros [?|?]|by right].
Qed.

(** The body of the [try] on a document that is an object. *)
Lemma try_body_object file top w :
  json_load file = Py.Returned (Py.Dict top) →
  try_body file w
  = match Py.get top (Py.lit "reviews") with
    | None =>
        (Py.Returned
           [st_error (cross_mark ++ Py.lit "JSON must contain 'reviews' key.")],
         w)
    | Some (Py.Dict []) =>
        (Py.Returned
           [st_warning (warning_sign ++ Py.lit "Review dictionary is empty.")],
         w)
    | Some (Py.Dict review_dict) =>
        match analyze_reviews review_dict w with
        | (Py.Returned output, w') => (Py.Returned (render output), w')
        | (Py.Raised e, w') => (Py.Raised e, w')
        end
    | Some _ =>
        (Py.Returned
           [st_error (cross_mark
              ++ Py.lit "'reviews' must be a dictionary with id:text format.")],
         w)
    end.
Proof.
  intros Hload. unfold try_body. run. rewrite Hload.
  destruct (Py.get top (Py.lit "reviews")) as [v|] eqn:Hget.
  - assert (Hmem : Py.mem top (Py.lit "reviews") = true).
    { apply mem_get. rewrite Hget. by eexists. }
    unfold Py.contains, Py.getitem. simpl in *. rewrite Hmem, Hget. simpl.
    by destruct v as [| | | | | |[|kv d]].
  - assert (Hmem : Py.mem top (Py.lit "reviews") = false).
    { apply not_true_is_false. intros Hm%mem_get. rewrite Hget in Hm.
      by destruct Hm. }
    unfold Py.contains. simpl in *. by rewrite Hmem.
Qed.

(** C5. The checks on the uploaded document run in order and the first that
    fails decides: no key [reviews], then a [reviews] that is no dictionary,
    then an empty [reviews]; each reports its message and nothing is called.
    Only a document that passes all three reaches the aggregator. *)
Theorem validation_order file top w :
  json_load file = Py.Returned (Py.Dict top) →
  (Py.mem top (Py.lit "reviews") = false →
     process_upload (Some file) w
     = (Py.Returned
          [st_error (cross_mark ++ Py.lit "JSON must contain 'reviews' key.")],
        w))
  ∧ (∀ v, Py.get top (Py.lit "reviews") = Some v →
          (∀ d, v ≠ Py.Dict d) →
     process_upload (Some file) w
     = (Py.Returned
          [st_error (cross_mark
             ++ Py.lit "'reviews' must be a dictionary with id:text format.")],
        w))
  ∧ (Py.get top (Py.lit "reviews") = Some (Py.Dict []) →
     process_upload (Some file) w
     = (Py.Returned
          [st_warning (warning_sign ++ Py.lit "Review dictionary is empty.")],
        w))
  ∧ (∀ review_dict,
       Py.get top (Py.lit "reviews") = Some (Py.Dict review_dict) →
       review_dict ≠ [] →
       process_upload (Some file) w
       = match analyze_reviews review_dict w with
         | (Py.Returned output, w') => (Py.Returned (render output), w')
         | (Py.Raised e, w') => handlers e w'
         end
       ∧ ∃ new, (process_upload (Some file) w).2
                = w ++ (Call_analyze_reviews review_dict :: new)).
Proof.
  intros Hload. unfold process_upload.
  rewrite (try_body_object _ _ _ Hload). split_and!.
  - intros Hmem. destruct (Py.get top (Py.lit "reviews")) eqn:Hget; [|done].
    assert (Py.mem top (Py.lit "reviews") = true); [|congruence].
    apply mem_get. rewrite Hget. by eexists.
  - intros v -> Hv. destruct v as [| | | | | |d]; try done. by destruct (Hv d).
  - by intros ->.
  - intros review_dict -> Hne.
    destruct review_dict as [|kv d]; [done|].
    destruct (analyze_reviews (kv :: d) w) as [o w'] eqn:Hrun.
    apply analyze_reviews_trace in Hrun as (new & -> & _).
    split; [by destruct o|]. exists new.
    destruct o as [out|e]; [done|]. unfold handlers. run.
    by destruct (Py.is_JSONDecodeError e), (Py.is_Exception e).
Qed.

(** The exceptions that leave the body of the [try]: those of [json.load],
    those of the analyzer, and the [TypeError], [KeyError] and
    [AttributeError] of the operations on a value of the wrong type. *)
Lemma try_body_raised file w e w' :
  try_body file w = (Py.Raised e, w') →
  json_load file = Py.Raised e
  ∨ (∃ h text, polarity_scores h text = Py.Raised e)
  ∨ Py.is_JSONDecodeError e = false ∧ Py.is_Exception e = true.
Proof.
  unfold try_body. run.
  destruct (json_load file) as [data|e0]; [|intros [= -> _]; by left].
  destruct (Py.contains data (Py.lit "reviews")) as [[|]|e1] eqn:Hin; simpl.
  - destruct (Py.getitem data (Py.lit "reviews")) as [reviews|e2] eqn:Hget.
    + destruct reviews as [| | | | | |d]; try done.
      destruct (bool_decide (length d = 0%nat)); [done|].
      rewrite analyze_reviews_run.
      destruct (for_items d _ _) as [[l|e3] w3] eqn:Hloop; [done|].
      intros [= -> _]. apply for_items_raised in Hloop as ([k v] & _ & Hkv).
      simpl in Hkv. destruct Hkv as [Hkv|[_ [h Hh]]].
      * right. right. unfold is_empty_review in Hkv.
        destruct (negb (Py.truthy v)); [done|].
        destruct v; simpl in Hkv; try done; by injection Hkv as <-.
      * right. left. by exists h, v.
    + intros [= -> _]. right. right.
      destruct data as [| | | | | |top]; simpl in Hget; try done;
        try by injection Hget as <-.
      destruct (Py.get top _); [done|]. by injection Hget as <-.
  - done.
  - intros [= -> _]. right. right.
    destruct data; simpl in Hin; try done; by injection Hin as <-.
Qed.

(** C6. A [JSONDecodeError] of [json.load] is reported as an invalid file;
    any other exception of the [Exception] family that leaves the body of the
    [try] is reported as an unexpected error with its message, also when it
    is [json.load] that raised it on a file it cannot read; a
    [JSONDecodeError] is reported as an invalid file wherever it was raised;
    an exception outside the [Exception] family is not caught and leaves the
    block; and when [json.load] and the analyzer raise nothing outside that
    family, the block always ends with a page and never with an exception. *)
Theorem errors_reported_at_boundary file w :
  (∀ e, json_load file = Py.Raised e → Py.is_JSONDecodeError e = true →
     process_upload (Some file) w
     = (Py.Returned
          [st_error (cross_mark ++ Py.lit "Invalid JSON file format.")], w))
  ∧ (∀ e w', try_body file w = (Py.Raised e, w') →
       Py.is_JSONDecodeError e = false → Py.is_Exception e = true →
     process_upload (Some file) w
     = (Py.Returned
          [st_error (warning_sign ++ Py.lit "Unexpected Error: "
                       ++ Py.exn_str e)], w'))
  ∧ ((∀ e, json_load file = Py.Raised e → Py.is_Exception e = true) →
     (∀ h text e, polarity_scores h text = Py.Raised e →
                  Py.is_Exception e = true) →
     ∃ page w', process_upload (Some file) w = (Py.Returned page, w'))
  ∧ (∀ e, json_load file = Py.Raised e →
       Py.is_JSONDecodeError e = false → Py.is_Exception e = true →
     process_upload (Some file) w
     = (Py.Returned
          [st_error (warning_sign ++ Py.lit "Unexpected Error: "
                       ++ Py.exn_str e)], w))
  ∧ (∀ e w', try_body file w = (Py.Raised e, w') →
       Py.is_JSONDecodeError e = true →
     process_upload (Some file) w
     = (Py.Returned
          [st_error (cross_mark ++ Py.lit "Invalid JSON file format.")], w'))
  ∧ (∀ e w', try_body file w = (Py.Raised e, w') →
       Py.is_Exception e = false →
     process_upload (Some file) w = (Py.Raised e, w')).
Proof.
  assert (Hload_body : ∀ e, json_load file = Py.Raised e →
                            try_body file w = (Py.Raised e, w)).
  { intros e Hload. unfold try_body. run. by rewrite Hload. }
  split_and!.
  - intros e Hload Hjson. unfold process_upload.
    rewrite (Hload_body e Hload). unfold handlers. by rewrite Hjson.
  - intros e w' Hbody Hjson Hexn. unfold process_upload. rewrite Hbody.
    unfold handlers. by rewrite Hjson, Hexn.
  - intros Hload Hscores. unfold process_upload.
    destruct (try_body file w) as [[page|e] w'] eqn:Hbody; [by eexists _, _|].
    assert (Hexn : Py.is_Exception e = true).
    { apply try_body_raised in Hbody as [He|[(h & text & He)|[_ He]]];
        [by apply Hload|by apply (Hscores h text)|done]. }
    unfold handlers. rewrite Hexn. run.
    destruct (Py.is_JSONDecodeError e); by eexists _, _.
  - intros e Hload Hjson Hexn. unfold process_upload.
    rewrite (Hload_body e Hload). unfold handlers. by rewrite Hjson, Hexn.
  - intros e w' Hbody Hjson. unfold process_upload. rewrite Hbody.
    unfold handlers. by rewrite Hjson.
  - intros e w' Hbody Hexn. unfold process_upload. rewrite Hbody.
    unfold handlers. rewrite Hexn.
    destruct e as [[| | |name|name] msg]; try done.
Qed.

(** ** More on the upload boundary *)

(** The body of the [try] on a document whose [reviews] is a dictionary that
    is not empty. *)
Lemma try_body_reviews file top review_dict w :
  json_load file = Py.Returned (Py.Dict top) →
  Py.get top (Py.lit "reviews") = Some (Py.Dict review_dict) →
  review_dict ≠ [] →
  try_body file w
  = match analyze_reviews review_dict w with
    | (Py.Returned output, w') => (Py.Returned (render output), w')
    | (Py.Raised e, w') => (Py.Raised e, w')
    end.
Proof.
  intros Hload Hget Hne. rewrite (try_body_object _ _ _ Hload), Hget.
  by destruct review_dict.
Qed.

(** X11. An upload in which one review text is truthy and not a string shows
    no result at all: when the reviews before it pass, the page is the one
    message [Unexpected Error: '<type>' object has no attribute 'strip'], and
    nothing was called for that review or a later one. *)
Theorem upload_wrong_type file top pre review_id v post w :
  json_load file = Py.Returned (Py.Dict top) →
  Py.get top (Py.lit "reviews")
  = Some (Py.Dict (pre ++ (review_id, v) :: post)) →
  (∀ kv, kv ∈ pre → ∃ b, is_empty_review kv.2 = Py.Returned b) →
  answers_for pre →
  is_text v = false →
  Py.truthy v = true →
  process_upload (Some file) w
  = (Py.Returned
       [st_error (warning_sign ++ Py.lit "Unexpected Error: "
                    ++ Py.lit "'" ++ Py.type_name v
                    ++ Py.lit "' object has no attribute 'strip'")],
     w ++ Call_analyze_reviews (pre ++ (review_id, v) :: post)
       :: calls_of_reviews pre).
Proof.
  intros Hload Hget Hchk Hans Hnt Hv. unfold process_upload.
  rewrite (try_body_reviews _ _ _ _ Hload Hget) by (by destruct pre).
  by rewrite (analyze_reviews_raises_wrong_type _ _ _ _ _ Hchk Hans Hnt Hv).
Qed.

(** X12. An upload whose [reviews] is a ReviewSet that is not empty, with an
    analyzer that answers for its texts, shows the result page of the
    aggregator's result and no message: the three figures shown add up to
    the number of reviews and the ids shown are those uploaded. *)
Theorem upload_success file top review_dict w :
  json_load file = Py.Returned (Py.Dict top) →
  Py.get top (Py.lit "reviews") = Some (Py.Dict review_dict) →
  review_dict ≠ [] →
  ReviewSet review_dict →
  answers_for review_dict →
  ∃ out w',
    process_upload (Some file) w = (Py.Returned (render out), w')
    ∧ analyze_reviews review_dict w = (Py.Returned out, w')
    ∧ Py.keys (sentiments out) = Py.keys review_dict
    ∧ (positive_count (summary out) + negative_count (summary out)
       + neutral_count (summary out))%nat = length review_dict.
Proof.
  intros Hload Hget Hne Hrs Hans.
  destruct (analyze_reviews_total review_dict w) as (out & w' & Hrun);
    [intros kv; by apply ReviewSet_checks|done|].
  destruct Hrs as [Hwf _].
  destruct (analyze_reviews_returned _ _ _ _ Hwf Hrun)
    as (_ & Hkeys & Hp & Hn & Hu & _).
  exists out, w'. unfold process_upload.
  rewrite (try_body_reviews _ _ _ _ Hload Hget Hne), Hrun.
  split_and!; try done.
  rewrite Hp, Hn, Hu, count_label_total.
  rewrite <- (length_fmap fst (sentiments out)),
          <- (length_fmap fst review_dict). by f_equal.
Qed.

(** X13. A document whose top level is not an object never reaches the
    aggregator and always ends in one error message: the missing-key message
    when the value does not contain [reviews] (an array without that
    element, a string without that substring); the unexpected-error message
    with the text of the [TypeError] of the membership test when the value
    cannot be searched (null, a boolean, a number); and the unexpected-error
    message with the text of the [TypeError] of the subscript when the value
    contains [reviews] (an array with that element, a string with that
    substring). *)
Theorem upload_not_an_object file data w :
  json_load file = Py.Returned data →
  (∀ top, data ≠ Py.Dict top) →
  (Py.contains data (Py.lit "reviews") = Py.Returned false →
     process_upload (Some file) w
     = (Py.Returned
          [st_error (cross_mark ++ Py.lit "JSON must contain 'reviews' key.")],
        w))
  ∧ (∀ e, Py.contains data (Py.lit "reviews") = Py.Raised e →
       Py.exn_cls e = Py.TypeError
       ∧ process_upload (Some file) w
         = (Py.Returned
              [st_error (warning_sign ++ Py.lit "Unexpected Error: "
                           ++ Py.exn_str e)], w))
  ∧ (Py.contains data (Py.lit "reviews") = Py.Returned true →
       ∃ e, Py.getitem data (Py.lit "reviews") = Py.Raised e
            ∧ Py.exn_cls e = Py.TypeError
            ∧ process_upload (Some file) w
              = (Py.Returned
                   [st_error (warning_sign ++ Py.lit "Unexpected Error: "
                                ++ Py.exn_str e)], w))
  ∧ ∃ body, process_upload (Some file) w = (Py.Returned [st_error body], w).
Proof.
  intros Hload Hnd. unfold process_upload, try_body. run. rewrite Hload.
  destruct data as [|b|z|f|s|l|top]; try by destruct (Hnd top).
  1-4: (split_and!; [done|by intros e [= <-]|done|by eexists]).
  - unfold Py.contains.
    destruct (Py.contains_str s (Py.lit "reviews")); simpl;
      (split_and!; [done|done| |by eexists]); [|done].
    intros _. by eexists (Py.Exn _ _).
  - unfold Py.contains.
    destruct (existsb _ l); simpl;
      (split_and!; [done|done| |by eexists]); [|done].
    intros _. by eexists (Py.Exn _ _).
Qed.

(** X15. An upload in which the analyzer fails on one review shows no
    result at all: when the reviews before it pass, the page is one message
    for the analyzer's exception, by its class: the unexpected-error message
    with its text, or the invalid-file message when it is a
    [JSONDecodeError] although the file was parsed.  Later reviews are never
    looked at. *)
Theorem upload_analyzer_failure file top pre review_id v post e w :
  json_load file = Py.Returned (Py.Dict top) →
  Py.get top (Py.lit "reviews")
  = Some (Py.Dict (pre ++ (review_id, v) :: post)) →
  (∀ kv, kv ∈ pre → ∃ b, is_empty_review kv.2 = Py.Returned b) →
  answers_for pre →
  is_empty_review v = Py.Returned false →
  (∀ h, polarity_scores h v = Py.Raised e) →
  Py.is_Exception e = true →
  process_upload (Some file) w
  = (Py.Returned
       [st_error
          (if Py.is_JSONDecodeError e then
             cross_mark ++ Py.lit "Invalid JSON file format."
           else warning_sign ++ Py.lit "Unexpected Error: " ++ Py.exn_str e)],
     w ++ Call_analyze_reviews (pre ++ (review_id, v) :: post)
       :: calls_of_reviews pre
          ++ [Call_classify_sentiment v; Call_polarity_scores v]).
Proof.
  intros Hload Hget Hchk Hans Hv He Hexn. unfold process_upload.
  rewrite (try_body_reviews _ _ _ _ Hload Hget) by (by destruct pre).
  rewrite (analyze_reviews_analyzer_failure _ _ _ _ _ _ Hchk Hans Hv He).
  unfold handlers. rewrite Hexn. by destruct (Py.is_JSONDecodeError e).
Qed.

End App.

(** ** The program on the stand-ins *)

Example scenario_A :
  (analyze_reviews stub_polarity_scores reviews_A []).1
  = Py.Returned
      {| sentiments := [ (Py.lit "id1", positive); (Py.lit "id2", neutral);
                         (Py.lit "id3", negative) ];
         summary := {| positive_count := 1; negative_count := 1;
                       neutral_count := 1 |} |}.
Proof. vm_compute. reflexivity. Qed.

Example scenario_E :
  analyze_reviews stub_polarity_scores reviews_E []
  = (Py.Returned
       {| sentiments := [ (Py.lit "id1", neutral) ];
          summary := {| positive_count := 0; negative_count := 0;
                        neutral_count := 1 |} |},
     [Call_analyze_reviews reviews_E]).
Proof. vm_compute. reflexivity. Qed.

Example scenario_B :
  process_upload stub_polarity_scores (load_as (Py.Returned document_B))
    (Some []) []
  = (Py.Returned
       [st_error (cross_mark ++ Py.lit "JSON must contain 'reviews' key.")], []).
Proof. vm_compute. reflexivity. Qed.

Example scenario_C :
  process_upload stub_polarity_scores
    (load_as (Py.Returned (document (Py.List [])))) (Some []) []
  = (Py.Returned
       [st_error (cross_mark
          ++ Py.lit "'reviews' must be a dictionary with id:text format.")], []).
Proof. vm_compute. reflexivity. Qed.

Example scenario_D :
  process_upload stub_polarity_scores
    (load_as (Py.Returned (document (Py.Dict [])))) (Some []) []
  = (Py.Returned
       [st_warning (warning_sign ++ Py.lit "Review dictionary is empty.")], []).
Proof. vm_compute. reflexivity. Qed.

Example malformed_json :
  process_upload stub_polarity_scores (load_as (Py.Raised decode_error))
    (Some []) []
  = (Py.Returned
       [st_error (cross_mark ++ Py.lit "Invalid JSON file format.")], []).
Proof. vm_compute. reflexivity. Qed.

(** A top-level value that is not an object: a list that holds the string
    [reviews] passes the first check and fails at the subscript. *)
Example top_level_list :
  (process_upload stub_polarity_scores
     (load_as (Py.Returned (Py.List [Py.Str (Py.lit "reviews")])))
     (Some []) []).1
  = Py.Returned
      [st_error (warning_sign ++ Py.lit "Unexpected Error: "
         ++ Py.lit "list indices must be integers or slices, not str")].
Proof. vm_compute. reflexivity. Qed.

(** A review whose text is a number: the whole analysis fails. *)
Example number_as_text :
  (process_upload stub_polarity_scores
     (load_as (Py.Returned
        (document (Py.Dict [ (Py.lit "id1", Py.Int 5) ]))))
     (Some []) []).1
  = Py.Returned
      [st_error (warning_sign ++ Py.lit "Unexpected Error: "
         ++ Py.lit "'int' object has no attribute 'strip'")].
Proof. vm_compute. reflexivity. Qed.

(** ** The theorems at concrete inputs *)

Lemma ReviewSet_reviews_A : ReviewSet reviews_A.
Proof.
  split; [|by repeat constructor].
  unfold Py.wf. apply (bool_decide_unpack _). vm_compute. exact I.
Defined.

Lemma answers_for_reviews_A : answers_for stub_polarity_scores reviews_A.
Proof.
  intros h kv Hin _.
  repeat (apply elem_of_cons in Hin as [->|Hin]); try (eexists; reflexivity).
  by apply elem_of_nil in Hin.
Defined.

Lemma ReviewSet_reviews_E : ReviewSet reviews_E.
Proof.
  split; [|by repeat constructor].
  unfold Py.wf. apply (bool_decide_unpack _). vm_compute. exact I.
Defined.

Lemma answers_for_reviews_E : answers_for stub_polarity_scores reviews_E.
Proof.
  intros h kv Hin _.
  repeat (apply elem_of_cons in Hin as [->|Hin]); try (eexists; reflexivity).
  by apply elem_of_nil in Hin.
Defined.

Lemma classify_sentiment_thresholds_witness :
  stub_polarity_scores (analyzer_history []) (Py.Str (Py.lit "just enough"))
  = Py.Returned (only_compound Py.f0_05)
  ∧ (classify_sentiment stub_polarity_scores
       (Py.Str (Py.lit "just enough")) []).1 = Py.Returned positive.
Proof.
  split; [reflexivity|].
  destruct (classify_sentiment_thresholds stub_polarity_scores
              (Py.Str (Py.lit "just enough")) [] (only_compound Py.f0_05)
              eq_refl) as (_ & _ & _ & Hexact & _).
  apply Hexact. reflexivity.
Defined.

Lemma analyze_reviews_keys_and_counts_witness :
  ReviewSet reviews_A
  ∧ answers_for stub_polarity_scores reviews_A
  ∧ ∃ out w',
      analyze_reviews stub_polarity_scores reviews_A [] = (Py.Returned out, w')
      ∧ Py.keys (sentiments out) = Py.keys reviews_A
      ∧ dom (Py.to_map (sentiments out)) = dom (Py.to_map reviews_A)
      ∧ size (Py.to_map (sentiments out)) = size (Py.to_map reviews_A)
      ∧ length (sentiments out) = length reviews_A
      ∧ (positive_count (summary out) + negative_count (summary out)
         + neutral_count (summary out))%nat = length reviews_A.
Proof.
  split; [exact ReviewSet_reviews_A|].
  split; [exact answers_for_reviews_A|].
  exact (analyze_reviews_keys_and_counts stub_polarity_scores reviews_A []
           ReviewSet_reviews_A answers_for_reviews_A).
Defined.

Lemma analyze_reviews_counts_tally_witness :
  ReviewSet reviews_E
  ∧ answers_for stub_polarity_scores reviews_E
  ∧ ∃ out w',
      analyze_reviews stub_polarity_scores reviews_E [] = (Py.Returned out, w')
      ∧ positive_count (summary out) = count_label positive (sentiments out)
      ∧ negative_count (summary out) = count_label negative (sentiments out)
      ∧ neutral_count (summary out) = count_label neutral (sentiments out)
      ∧ (∀ k v, (k, v) ∈ reviews_E → is_empty_review v = Py.Returned true →
                Py.to_map (sentiments out) !! k = Some neutral).
Proof.
  split; [exact ReviewSet_reviews_E|].
  split; [exact answers_for_reviews_E|].
  exact (analyze_reviews_counts_tally stub_polarity_scores reviews_E []
           ReviewSet_reviews_E answers_for_reviews_E).
Defined.

Lemma empty_text_is_neutral_witness :
  Py.wf reviews_E
  ∧ (Py.lit "id1", Py.Str (Py.lit "   ")) ∈ reviews_E
  ∧ forallb Py.isspace (Py.lit "   ") = true
  ∧ ∀ out w',
      analyze_reviews stub_polarity_scores reviews_E [] = (Py.Returned out, w') →
      Py.get (sentiments out) (Py.lit "id1") = Some neutral.
Proof.
  assert (Hin : (Py.lit "id1", Py.Str (Py.lit "   ")) ∈ reviews_E)
    by apply list_elem_of_here.
  split; [exact (proj1 ReviewSet_reviews_E)|].
  split; [exact Hin|]. split; [reflexivity|].
  exact (proj2 (proj2 (empty_text_is_neutral stub_polarity_scores reviews_E
                         (Py.lit "id1") (Py.lit "   ") []
                         (proj1 ReviewSet_reviews_E) Hin eq_refl))).
Defined.

Lemma classify_sentiment_propagates_witness :
  stub_polarity_scores (analyzer_history []) (Py.Str (Py.lit "crash"))
  = Py.Raised (Py.Exn (Py.OtherException (Py.lit "RuntimeError"))
                 (Py.lit "lexicon unavailable"))
  ∧ (classify_sentiment stub_polarity_scores (Py.Str (Py.lit "crash")) []).1
    = Py.Raised (Py.Exn (Py.OtherException (Py.lit "RuntimeError"))
                   (Py.lit "lexicon unavailable")).
Proof.
  split; [reflexivity|].
  exact (proj1 (classify_sentiment_propagates stub_polarity_scores
                  (Py.Str (Py.lit "crash")) [] _ eq_refl)).
Defined.



Lemma falsy_text_is_neutral_witness :
  is_text Py.None_ = false
  ∧ Py.truthy Py.None_ = false
  ∧ is_empty_review Py.None_ = Py.Returned true
  ∧ ∀ l review_id w,
      loop_body stub_polarity_scores l review_id Py.None_ w
      = (Py.Returned (Locals (Py.set (v_sentiments l) review_id neutral)
                        (v_positive_count l) (v_negative_count l)
                        (v_neutral_count l + 1)), w).
Proof.
  split; [reflexivity|]. split; [reflexivity|].
  destruct (falsy_text_is_neutral stub_polarity_scores Py.None_
              eq_refl eq_refl) as (_ & Hcheck & Hturn & _).
  split; [exact Hcheck|exact Hturn].
Defined.

Lemma validation_order_witness :
  load_as (Py.Returned document_B) [] = Py.Returned document_B
  ∧ Py.mem [ (Py.lit "foo", Py.Dict []) ] (Py.lit "reviews") = false
  ∧ process_upload stub_polarity_scores (load_as (Py.Returned document_B))
      (Some []) []
    = (Py.Returned
         [st_error (cross_mark ++ Py.lit "JSON must contain 'reviews' key.")],
       []).
Proof.
  split; [reflexivity|]. split; [reflexivity|].
  exact (proj1 (validation_order stub_polarity_scores
                  (load_as (Py.Returned document_B)) []
                  [ (Py.lit "foo", Py.Dict []) ] [] eq_refl) eq_refl).
Defined.

Lemma errors_reported_at_boundary_witness :
  load_as (Py.Raised decode_error) [] = Py.Raised decode_error
  ∧ Py.is_JSONDecodeError decode_error = true
  ∧ process_upload stub_polarity_scores (load_as (Py.Raised decode_error))
      (Some []) []
    = (Py.Returned
         [st_error (cross_mark ++ Py.lit "Invalid JSON file format.")], [])
  ∧ Py.is_JSONDecodeError unicode_decode_error = false
  ∧ Py.is_Exception unicode_decode_error = true
  ∧ process_upload stub_polarity_scores
      (load_as (Py.Raised unicode_decode_error)) (Some invalid_utf8_file) []
    = (Py.Returned
         [st_error (warning_sign ++ Py.lit "Unexpected Error: "
                      ++ Py.exn_str unicode_decode_error)], []).
Proof.
  split; [reflexivity|]. split; [reflexivity|].
  split.
  { exact (proj1 (errors_reported_at_boundary stub_polarity_scores
                    (load_as (Py.Raised decode_error)) [] [])
             decode_error eq_refl eq_refl). }
  split; [reflexivity|]. split; [reflexivity|].
  exact (proj1 (proj2 (proj2 (proj2
           (errors_reported_at_boundary stub_polarity_scores
              (load_as (Py.Raised unicode_decode_error))
              invalid_utf8_file []))))
           unicode_decode_error eq_refl eq_refl eq_refl).
Defined.

(** Three uploads on which not every failure is reported as the two messages
    say: a file that is not valid JSON, which [json.load] rejects with a
    [UnicodeDecodeError], is reported as an unexpected error and not as an
    invalid file; a [KeyboardInterrupt] during the analysis is not caught and
    no page is returned; and a [JSONDecodeError] raised during the analysis of
    a file that was parsed is reported as an invalid file, without its
    message. *)
Lemma errors_reported_at_boundary_counterexample :
  process_upload stub_polarity_scores
    (load_as (Py.Raised unicode_decode_error)) (Some invalid_utf8_file) []
  = (Py.Returned
       [st_error (warning_sign ++ Py.lit "Unexpected Error: "
          ++ Py.lit "'utf-8' codec can't decode byte 0xff in position 19: invalid start byte")],
     [])
  ∧ process_upload stub_polarity_scores
      (load_as (Py.Raised unicode_decode_error)) (Some invalid_utf8_file) []
    ≠ (Py.Returned
         [st_error (cross_mark ++ Py.lit "Invalid JSON file format.")], [])
  ∧ (process_upload interrupted_polarity_scores
       (load_as (Py.Returned (document (Py.Dict reviews_A)))) (Some []) []).1
    = Py.Raised keyboard_interrupt
  ∧ (∀ page w',
       process_upload interrupted_polarity_scores
         (load_as (Py.Returned (document (Py.Dict reviews_A)))) (Some []) []
       ≠ (Py.Returned page, w'))
  ∧ (process_upload decoding_polarity_scores
       (load_as (Py.Returned (document (Py.Dict reviews_A)))) (Some []) []).1
    = Py.Returned
        [st_error (cross_mark ++ Py.lit "Invalid JSON file format.")]
  ∧ (process_upload decoding_polarity_scores
       (load_as (Py.Returned (document (Py.Dict reviews_A)))) (Some []) []).1
    ≠ Py.Returned
        [st_error (warning_sign ++ Py.lit "Unexpected Error: "
                     ++ Py.exn_str decode_error)].
Proof.
  split; [vm_compute; reflexivity|].
  split; [vm_compute; discriminate|].
  split; [vm_compute; reflexivity|].
  split; [intros page w'; vm_compute; discriminate|].
  split; [vm_compute; reflexivity|].
  vm_compute. discriminate.
Qed.

(** ** The further theorems at concrete inputs *)

Lemma run_reviews_A :
  analyze_reviews stub_polarity_scores reviews_A []
  = (Py.Returned result_A,
     (analyze_reviews stub_polarity_scores reviews_A []).2).
Proof. vm_compute. reflexivity. Defined.

Lemma stateless_stub : stateless stub_polarity_scores.
Proof. intros h h' text. reflexivity. Defined.

Lemma checks_before_number kv :
  kv ∈ reviews_before_number → ∃ b, is_empty_review kv.2 = Py.Returned b.
Proof.
  intros Hin. repeat (apply elem_of_cons in Hin as [->|Hin]);
    try (eexists; reflexivity).
  by apply elem_of_nil in Hin.
Defined.

Lemma answers_for_before_number :
  answers_for stub_polarity_scores reviews_before_number.
Proof.
  intros h kv Hin _.
  repeat (apply elem_of_cons in Hin as [->|Hin]); try (eexists; reflexivity).
  by apply elem_of_nil in Hin.
Defined.

Lemma label_of_score_decimal_witness :
  Py.binary64 Py.f0_05 = true
  ∧ Py.float_value Py.f0_05 = Some (7205759403792794 # 2 ^ 57)%Q
  ∧ (1 # 20 <= 7205759403792794 # 2 ^ 57)%Q.
Proof.
  split; [vm_compute; reflexivity|]. split; [reflexivity|].
  apply (proj1 (label_of_score_decimal Py.f0_05 _ eq_refl eq_refl)).
  vm_compute. reflexivity.
Defined.

Lemma label_of_score_monotone_witness :
  Py.float_le (SFopp f0_5) f0_5 = true
  ∧ (rank (label_of_score (SFopp f0_5)) ≤ rank (label_of_score f0_5))%nat.
Proof.
  split; [reflexivity|].
  exact (label_of_score_monotone (SFopp f0_5) f0_5 eq_refl).
Defined.

Lemma analyze_reviews_pointwise_witness :
  Py.wf reviews_A
  ∧ Forall2 (fun kv kl => kl.1 = kv.1
                          ∧ labelled stub_polarity_scores kv.2 kl.2)
      reviews_A (sentiments result_A).
Proof.
  split; [exact (proj1 ReviewSet_reviews_A)|].
  exact (analyze_reviews_pointwise stub_polarity_scores reviews_A [] result_A _
           (proj1 ReviewSet_reviews_A) run_reviews_A).
Defined.

Lemma analyze_reviews_calls_witness :
  analyzer_history (analyze_reviews stub_polarity_scores reviews_A []).2
  = analyzer_history []
    ++ filter (fun v => goes_to_classifier v = true) reviews_A.*2.
Proof.
  exact (proj2 (analyze_reviews_calls stub_polarity_scores reviews_A []
                  result_A _ run_reviews_A)).
Defined.

Lemma analyze_reviews_wrong_type_witness :
  is_text (Py.Int 5) = false
  ∧ Py.truthy (Py.Int 5) = true
  ∧ analyze_reviews stub_polarity_scores reviews_number []
    = (Py.Raised (Py.Exn Py.AttributeError
         (Py.lit "'int' object has no attribute 'strip'")),
       Call_analyze_reviews reviews_number
         :: calls_of_reviews reviews_before_number).
Proof.
  split; [reflexivity|]. split; [reflexivity|].
  exact (analyze_reviews_wrong_type stub_polarity_scores reviews_before_number
           (Py.lit "id2") (Py.Int 5) reviews_after_number []
           checks_before_number answers_for_before_number eq_refl eq_refl).
Defined.

Lemma run_reviews_crash :
  analyze_reviews stub_polarity_scores reviews_crash []
  = (Py.Raised (Py.Exn (Py.OtherException (Py.lit "RuntimeError"))
                  (Py.lit "lexicon unavailable")),
     (analyze_reviews stub_polarity_scores reviews_crash []).2).
Proof. vm_compute. reflexivity. Defined.

Lemma analyze_reviews_stops_at_first_failure_witness :
  ∃ pre review_id review_text post,
    reviews_crash = pre ++ (review_id, review_text) :: post
    ∧ Forall (fun kv => ∃ lab, labelled stub_polarity_scores kv.2 lab) pre
    ∧ (analyze_reviews stub_polarity_scores reviews_crash []).2
      = [] ++ Call_analyze_reviews reviews_crash
           :: calls_of_reviews pre ++ calls_of_review review_text.
Proof.
  destruct (analyze_reviews_stops_at_first_failure stub_polarity_scores
              reviews_crash [] _ _ run_reviews_crash)
    as (pre & k & v & post & Hd & Hpre & _ & Hw).
  by exists pre, k, v, post.
Defined.

Lemma analyze_reviews_order_irrelevant_witness :
  reviews_A ≡ₚ rev reviews_A
  ∧ ∃ out' w2,
      analyze_reviews stub_polarity_scores (rev reviews_A) []
      = (Py.Returned out', w2)
      ∧ sentiments out' ≡ₚ sentiments result_A
      ∧ summary out' = summary result_A.
Proof.
  split; [apply Permutation_rev|].
  exact (analyze_reviews_order_irrelevant stub_polarity_scores reviews_A
           (rev reviews_A) [] result_A _ stateless_stub
           (proj1 ReviewSet_reviews_A) (Permutation_rev _) run_reviews_A).
Defined.

Lemma analyze_reviews_all_empty_witness :
  Forall (fun kv => is_empty_review kv.2 = Py.Returned true) reviews_E
  ∧ analyze_reviews stub_polarity_scores reviews_E []
    = (Py.Returned
         {| sentiments := map (fun kv => (kv.1, neutral)) reviews_E;
            summary := {| positive_count := 0; negative_count := 0;
                          neutral_count := length reviews_E |} |},
       [] ++ [Call_analyze_reviews reviews_E]).
Proof.
  assert (Hall : Forall (fun kv => is_empty_review kv.2 = Py.Returned true)
                   reviews_E) by (by repeat constructor).
  split; [exact Hall|].
  exact (analyze_reviews_all_empty stub_polarity_scores reviews_E []
           (proj1 ReviewSet_reviews_E) Hall).
Defined.

Lemma upload_wrong_type_witness :
  process_upload stub_polarity_scores
    (load_as (Py.Returned (document (Py.Dict reviews_number)))) (Some []) []
  = (Py.Returned
       [st_error (warning_sign ++ Py.lit "Unexpected Error: "
                    ++ Py.lit "'" ++ Py.type_name (Py.Int 5)
                    ++ Py.lit "' object has no attribute 'strip'")],
     [] ++ Call_analyze_reviews reviews_number
        :: calls_of_reviews reviews_before_number).
Proof.
  exact (upload_wrong_type stub_polarity_scores
           (load_as (Py.Returned (document (Py.Dict reviews_number)))) []
           [ (Py.lit "reviews", Py.Dict reviews_number) ]
           reviews_before_number (Py.lit "id2") (Py.Int 5)
           reviews_after_number [] eq_refl eq_refl
           checks_before_number answers_for_before_number eq_refl eq_refl).
Defined.

Lemma upload_success_witness :
  reviews_A ≠ []
  ∧ ∃ out w',
      process_upload stub_polarity_scores
        (load_as (Py.Returned (document (Py.Dict reviews_A)))) (Some []) []
      = (Py.Returned (render out), w')
      ∧ analyze_reviews stub_polarity_scores reviews_A []
        = (Py.Returned out, w')
      ∧ Py.keys (sentiments out) = Py.keys reviews_A
      ∧ (positive_count (summary out) + negative_count (summary out)
         + neutral_count (summary out))%nat = length reviews_A.
Proof.
  assert (Hne : reviews_A ≠ []) by done.
  split; [exact Hne|].
  exact (upload_success stub_polarity_scores
           (load_as (Py.Returned (document (Py.Dict reviews_A)))) []
           [ (Py.lit "reviews", Py.Dict reviews_A) ] reviews_A []
           eq_refl eq_refl Hne ReviewSet_reviews_A answers_for_reviews_A).
Defined.

Lemma upload_not_an_object_witness :
  (∀ top, Py.List [Py.Str (Py.lit "reviews")] ≠ Py.Dict top)
  ∧ Py.contains (Py.List [Py.Str (Py.lit "reviews")]) (Py.lit "reviews")
    = Py.Returned true
  ∧ ∃ e,
      Py.getitem (Py.List [Py.Str (Py.lit "reviews")]) (Py.lit "reviews")
      = Py.Raised e
      ∧ Py.exn_cls e = Py.TypeError
      ∧ process_upload stub_polarity_scores
          (load_as (Py.Returned (Py.List [Py.Str (Py.lit "reviews")])))
          (Some []) []
        = (Py.Returned
             [st_error (warning_sign ++ Py.lit "Unexpected Error: "
                          ++ Py.exn_str e)], []).
Proof.
  assert (Hnd : ∀ top, Py.List [Py.Str (Py.lit "reviews")] ≠ Py.Dict top)
    by done.
  split; [exact Hnd|]. split; [reflexivity|].
  exact (proj1 (proj2 (proj2
           (upload_not_an_object stub_polarity_scores
              (load_as (Py.Returned (Py.List [Py.Str (Py.lit "reviews")])))
              [] (Py.List [Py.Str (Py.lit "reviews")]) [] eq_refl Hnd)))
           eq_refl).
Defined.

Lemma analyze_reviews_counts_by_text_witness :
  positive_count (summary result_A)
  = length (filter (fun kv => label_now stub_polarity_scores kv.2 = positive)
              reviews_A)
  ∧ negative_count (summary result_A)
    = length (filter (fun kv => label_now stub_polarity_scores kv.2 = negative)
                reviews_A)
  ∧ neutral_count (summary result_A)
    = length (filter (fun kv => label_now stub_polarity_scores kv.2 = neutral)
                reviews_A).
Proof.
  exact (analyze_reviews_counts_by_text stub_polarity_scores reviews_A []
           result_A _ stateless_stub (proj1 ReviewSet_reviews_A)
           run_reviews_A).
Defined.

Lemma upload_analyzer_failure_witness :
  is_empty_review (Py.Str (Py.lit "crash")) = Py.Returned false
  ∧ process_upload stub_polarity_scores
      (load_as (Py.Returned (document (Py.Dict reviews_crash)))) (Some []) []
    = (Py.Returned
         [st_error (warning_sign ++ Py.lit "Unexpected Error: "
                      ++ Py.lit "lexicon unavailable")],
       [ Call_analyze_reviews reviews_crash;
         Call_classify_sentiment (Py.Str (Py.lit "crash"));
         Call_polarity_scores (Py.Str (Py.lit "crash")) ]).
Proof.
  split; [reflexivity|].
  refine (upload_analyzer_failure stub_polarity_scores
            (load_as (Py.Returned (document (Py.Dict reviews_crash)))) []
            [ (Py.lit "reviews", Py.Dict reviews_crash) ]
            [] (Py.lit "id1") (Py.Str (Py.lit "crash")) [] _ []
            eq_refl eq_refl _ _ eq_refl (fun h => eq_refl) eq_refl).
  - intros kv Hin. by apply elem_of_nil in Hin.
  - intros h kv Hin. by apply elem_of_nil in Hin.
Defined.
